(** * MitreAttackData: relationship resolution over a STIX 2.0 store

    A shallow embedding of [mitreattack/stix20/MitreAttackData.py].

    Python values are modelled as follows:
    - [str] as [string]; the test [a in b] on two strings as [str_in a b];
    - a [dict] with string keys as an insertion-ordered association list
      with unique keys ([dict]), since the source iterates over dictionaries;
    - exceptions as the [Raise] case of [result]; a function that returns
      is [Ok];
    - STIX objects as records, the optional flags as [option bool]. *)

From Stdlib Require Import String Ascii List Bool Arith Lia Permutation.
Import ListNotations.
Open Scope string_scope.
Open Scope list_scope.

Set Implicit Arguments.

(* ================================================================= *)
(** ** Exceptions *)

Inductive exn : Type :=
| ValueError
| IndexError
| KeyError
| AttributeError
| InvalidFilter.

Inductive result (A : Type) : Type :=
| Ok (a : A)
| Raise (e : exn).

Arguments Ok {A} a.
Arguments Raise {A} e.

Definition bind {A B : Type} (c : result A) (k : A -> result B) : result B :=
  match c with
  | Ok a => k a
  | Raise e => Raise e
  end.

Notation "x <- c ;; k" := (bind c (fun x => k))
  (at level 61, c at next level, right associativity).

(** [for x in xs: s = body(s, x)], stopping at the first exception. *)
Fixpoint for_each {A S : Type} (xs : list A) (s : S) (body : S -> A -> result S)
  : result S :=
  match xs with
  | [] => Ok s
  | x :: xs' => s' <- body s x ;; for_each xs' s' body
  end.

(** [xs[i]] on a Python list. *)
Definition list_index {A : Type} (xs : list A) (i : nat) : result A :=
  match nth_error xs i with
  | Some x => Ok x
  | None => Raise IndexError
  end.

(* ================================================================= *)
(** ** Strings *)

(** Python's [needle in hay] on strings: [needle] occurs as a substring. *)
Fixpoint str_in (needle hay : string) : bool :=
  String.prefix needle hay ||
  match hay with
  | EmptyString => false
  | String _ hay' => str_in needle hay'
  end.

Definition str_mem (s : string) (l : list string) : bool :=
  existsb (String.eqb s) l.

(* ================================================================= *)
(** ** Dictionaries *)

Section Dict.
Variable V : Type.

Definition dict := list (string * V).

Fixpoint dict_get (k : string) (d : dict) : option V :=
  match d with
  | [] => None
  | (k', v) :: d' => if k' =? k then Some v else dict_get k d'
  end.

(** [k in d] *)
Definition dict_mem (k : string) (d : dict) : bool :=
  match dict_get k d with
  | Some _ => true
  | None => false
  end.

(** [d[k]] *)
Definition dict_index (k : string) (d : dict) : result V :=
  match dict_get k d with
  | Some v => Ok v
  | None => Raise KeyError
  end.

(** [d[k] = v]: an existing key keeps its position, a new key goes last. *)
Fixpoint dict_set (k : string) (v : V) (d : dict) : dict :=
  match d with
  | [] => [(k, v)]
  | (k', v') :: d' =>
      if k' =? k then (k, v) :: d' else (k', v') :: dict_set k v d'
  end.

Definition dict_keys (d : dict) : list string := map fst d.

(** [{**a, **b}] *)
Definition dict_union (a b : dict) : dict :=
  fold_left (fun acc kv => dict_set (fst kv) (snd kv) acc) b a.
End Dict.

Arguments dict_get {V} k d.
Arguments dict_mem {V} k d.
Arguments dict_index {V} k d.
Arguments dict_set {V} k v d.
Arguments dict_keys {V} d.
Arguments dict_union {V} a b.

(* ================================================================= *)
(** ** STIX objects *)

Record ExternalReference : Type := {
  source_name : string;
  external_id : option string
}.

(** A domain object (technique, group, software, campaign, ...). *)
Record Entity : Type := {
  ent_id : string;
  ent_type : string;
  ent_name : option string;
  ent_aliases : option (list string);
  ent_x_mitre_aliases : option (list string);
  ent_external_references : option (list ExternalReference);
  ent_x_mitre_deprecated : option bool;
  ent_revoked : option bool
}.

(** A relationship object; stix2 requires its three defining fields. *)
Record Relationship : Type := {
  rel_id : string;
  relationship_type : string;
  source_ref : string;
  target_ref : string;
  rel_x_mitre_deprecated : option bool;
  rel_revoked : option bool
}.

Inductive StixObject : Type :=
| SDO (e : Entity)
| SRO (r : Relationship).

Definition obj_id (o : StixObject) : string :=
  match o with
  | SDO e => ent_id e
  | SRO r => rel_id r
  end.

Definition obj_type (o : StixObject) : string :=
  match o with
  | SDO e => ent_type e
  | SRO _ => "relationship"
  end.

Definition obj_x_mitre_deprecated (o : StixObject) : option bool :=
  match o with
  | SDO e => ent_x_mitre_deprecated e
  | SRO r => rel_x_mitre_deprecated r
  end.

Definition obj_revoked (o : StixObject) : option bool :=
  match o with
  | SDO e => ent_revoked e
  | SRO r => rel_revoked r
  end.

(** [x.get(key, default)] on an optional field. *)
Definition get_default {A : Type} (field : option A) (default : A) : A :=
  match field with
  | Some a => a
  | None => default
  end.

(** [b is False] on a boolean. *)
Definition is_False (b : bool) : bool := negb b.

(** [r.target_ref]: only relationship objects have the attribute. *)
Definition attr_target_ref (o : StixObject) : result string :=
  match o with
  | SRO r => Ok (target_ref r)
  | SDO _ => Raise AttributeError
  end.

(* ================================================================= *)
(** ** The entity store

    The store is stix2's [MemoryStore], loaded once from a bundle; it is
    not part of this repository.  Its two entry points used here are
    [query] (a conjunction of filters over the loaded objects, in load
    order) and [relationships]. *)

Inductive FilterOp : Type := OpEq | OpIn | OpContains.

Inductive FilterValue : Type :=
| FStr (s : string)
| FBool (b : bool)
| FStrs (l : list string).

Record Filter : Type := mkFilter {
  f_property : string;
  f_op : FilterOp;
  f_value : FilterValue
}.

(** The value an object has for a property name, when it has one. *)
Definition get_property (o : StixObject) (p : string) : option FilterValue :=
  if p =? "id" then Some (FStr (obj_id o))
  else if p =? "type" then Some (FStr (obj_type o))
  else if p =? "revoked" then option_map FBool (obj_revoked o)
  else if p =? "x_mitre_deprecated" then option_map FBool (obj_x_mitre_deprecated o)
  else
    match o with
    | SDO e =>
        if p =? "name" then option_map FStr (ent_name e)
        else if p =? "aliases" then option_map FStrs (ent_aliases e)
        else if p =? "x_mitre_aliases" then option_map FStrs (ent_x_mitre_aliases e)
        else if p =? "external_references.external_id" then
          option_map
            (fun refs =>
               FStrs (flat_map (fun r => match external_id r with
                                         | Some i => [i]
                                         | None => []
                                         end) refs))
            (ent_external_references e)
        else None
    | SRO r =>
        if p =? "relationship_type" then Some (FStr (relationship_type r))
        else if p =? "source_ref" then Some (FStr (source_ref r))
        else if p =? "target_ref" then Some (FStr (target_ref r))
        else None
    end.

(** The store's filter engine is stix2's, outside the sources.  A filter on
    a property the object does not carry does not match.  On a list-valued
    property the test is made on each element and holds when it holds of
    one.  [contains] is Python's [value in property]: on a list of strings
    the value is matched as a substring of an element. *)
Definition check_property (op : FilterOp) (wanted actual : FilterValue) : bool :=
  match op, wanted, actual with
  | OpEq, FStr w, FStr a => a =? w
  | OpEq, FBool w, FBool a => Bool.eqb a w
  | OpEq, FStr w, FStrs l => str_mem w l
  | OpIn, FStrs ws, FStr a => str_mem a ws
  | OpContains, FStr w, FStrs l => existsb (str_in w) l
  | _, _, _ => false
  end.

Definition check_filter (o : StixObject) (f : Filter) : bool :=
  match get_property o (f_property f) with
  | Some actual => check_property (f_op f) (f_value f) actual
  | None => false
  end.

Definition stix_types : list string :=
  [ "attack-pattern"; "malware"; "tool"; "intrusion-set"; "campaign";
    "course-of-action"; "x-mitre-matrix"; "x-mitre-tactic";
    "x-mitre-data-source"; "x-mitre-data-component" ].

(** Modelled from the spec: the relationship-type vocabulary of section 6;
    the source has no such table. *)
Definition relationship_types : list string :=
  [ "uses"; "mitigates"; "detects"; "attributed-to"; "subtechnique-of";
    "revoked-by" ].

(** A store snapshot: the loaded objects in load order, and whether its
    query engine rejects type tags outside the vocabulary.  The spec
    (section 4.2) describes a store that does; stix2's own engine compares
    strings and rejects nothing.  Results below are stated for both. *)
Record MemoryStore : Type := {
  objects : list StixObject;
  validating : bool
}.

Definition filter_accepted (f : Filter) : bool :=
  match f_value f with
  | FStr v =>
      if f_property f =? "type" then str_mem v ("relationship" :: stix_types)
      else if f_property f =? "relationship_type" then str_mem v relationship_types
      else true
  | _ => true
  end.

(** [self.src.query(filters)] *)
Definition src_query (st : MemoryStore) (filters : list Filter)
  : result (list StixObject) :=
  if validating st && negb (forallb filter_accepted filters)
  then Raise InvalidFilter
  else Ok (filter (fun o => forallb (check_filter o) filters) (objects st)).

(** [self.src.relationships(obj_id, relationship_type, source_only, target_only)]
    with a string identifier and a relationship type, as stix2 defines it on
    top of [query]. *)
Definition src_relationships (st : MemoryStore) (obj_id : string)
    (rel_type : string) (source_only target_only : bool)
  : result (list StixObject) :=
  let filters := [ mkFilter "type" OpEq (FStr "relationship");
                   mkFilter "relationship_type" OpEq (FStr rel_type) ] in
  if source_only && target_only then Raise ValueError
  else
    from_source <-
      (if negb target_only
       then src_query st (filters ++ [mkFilter "source_ref" OpEq (FStr obj_id)])
       else Ok []) ;;
    from_target <-
      (if negb source_only
       then src_query st (filters ++ [mkFilter "target_ref" OpEq (FStr obj_id)])
       else Ok []) ;;
    Ok (from_source ++ from_target).

(** Modelled from the spec: [StixObjectFactory] lives in
    [custom_attack_objects], outside the sources.  It "converts a raw record
    plus its declared type into one of a fixed set of typed view variants";
    the view keeps every field of the record. *)
Record TypedView : Type := {
  view_tag : string;
  view_data : StixObject
}.

Definition StixObjectFactory (o : StixObject) : TypedView :=
  {| view_tag := obj_type o; view_data := o |}.

(* ================================================================= *)
(** ** Revocation filter *)

Definition remove_revoked_deprecated (stix_objects : list StixObject)
  : list StixObject :=
  filter
    (fun x =>
       is_False (get_default (obj_x_mitre_deprecated x) false)
       && is_False (get_default (obj_revoked x) false))
    stix_objects.

(* ================================================================= *)
(** ** Relationship resolver *)

(** [{'relationship': ..., 'id': ...}], the intermediate pair. *)
Record Related : Type := {
  related_relationship : Relationship;
  related_id : string
}.

(** [{'object': ..., 'relationship': ...}], an entry of a mapping. *)
Record Entry : Type := {
  object : TypedView;
  relationship : Relationship
}.

Definition mapping := dict (list Entry).

(** Body of the loop [for relationship in relationships] of [get_related]. *)
Definition add_related (source_type target_type : string) (reverse : bool)
    (id_to_related : dict (list Related)) (o : StixObject)
  : result (dict (list Related)) :=
  match o with
  | SDO _ => Raise AttributeError
  | SRO relationship =>
      if str_in source_type (source_ref relationship)
         && str_in target_type (target_ref relationship)
      then
        if (dict_mem (source_ref relationship) id_to_related && negb reverse)
           || (dict_mem (target_ref relationship) id_to_related && reverse)
        then
          (* append to existing entry *)
          if negb reverse then
            l <- dict_index (source_ref relationship) id_to_related ;;
            Ok (dict_set (source_ref relationship)
                  (l ++ [ {| related_relationship := relationship;
                             related_id := target_ref relationship |} ])
                  id_to_related)
          else
            l <- dict_index (target_ref relationship) id_to_related ;;
            Ok (dict_set (target_ref relationship)
                  (l ++ [ {| related_relationship := relationship;
                             related_id := source_ref relationship |} ])
                  id_to_related)
        else
          (* create a new entry *)
          if negb reverse then
            Ok (dict_set (source_ref relationship)
                  [ {| related_relationship := relationship;
                       related_id := target_ref relationship |} ]
                  id_to_related)
          else
            Ok (dict_set (target_ref relationship)
                  [ {| related_relationship := relationship;
                       related_id := source_ref relationship |} ]
                  id_to_related)
      else Ok id_to_related
  end.

(** [id_to_target[target['id']] = target] for each target. *)
Definition build_id_to_target (targets : list StixObject) : dict StixObject :=
  fold_left (fun id_to_target target => dict_set (obj_id target) target id_to_target)
            targets [].

(** The inner loop [for related in id_to_related[stix_id]]. *)
Definition resolve_related (id_to_target : dict StixObject) (rels : list Related)
  : list Entry :=
  fold_left
    (fun value related =>
       match dict_get (related_id related) id_to_target with
       | None => value (* targeting a revoked object *)
       | Some target =>
           value ++ [ {| object := StixObjectFactory target;
                         relationship := related_relationship related |} ]
       end)
    rels [].

(** The outer loop [for stix_id in id_to_related]. *)
Definition build_output (id_to_target : dict StixObject)
    (id_to_related : dict (list Related)) : mapping :=
  fold_left
    (fun output kv => dict_set (fst kv) (resolve_related id_to_target (snd kv)) output)
    id_to_related [].

Definition get_related (st : MemoryStore)
    (source_type rel_type target_type : string) (reverse : bool)
  : result mapping :=
  relationships <-
    src_query st [ mkFilter "type" OpEq (FStr "relationship");
                   mkFilter "relationship_type" OpEq (FStr rel_type);
                   mkFilter "revoked" OpEq (FBool false) ] ;;
  let relationships := remove_revoked_deprecated relationships in
  id_to_related <-
    for_each relationships [] (add_related source_type target_type reverse) ;;
  targets <-
    (if negb reverse
     then src_query st [ mkFilter "type" OpEq (FStr target_type);
                         mkFilter "revoked" OpEq (FBool false) ]
     else src_query st [ mkFilter "type" OpEq (FStr source_type);
                         mkFilter "revoked" OpEq (FBool false) ]) ;;
  let id_to_target := build_id_to_target targets in
  Ok (build_output id_to_target id_to_related).

(** [merge(map_a, map_b)].  The source extends [map_a] in place and returns
    it; every caller passes two freshly built mappings and reads only the
    returned one afterwards, so the returned value is all that is observed. *)
Definition merge (map_a map_b : mapping) : mapping :=
  fold_left
    (fun map_a kv =>
       match dict_get (fst kv) map_a with
       | Some l => dict_set (fst kv) (l ++ snd kv) map_a
       | None => dict_set (fst kv) (snd kv) map_a
       end)
    map_b map_a.

(** The loop shared by the four bridged composites: for every anchor of
    [bridge], collect the [via] entries of each bridging object, then extend
    (or create) the anchor's entry in [direct]. *)
Definition collect_bridged (via : mapping) (bridging : list Entry) : list Entry :=
  fold_left
    (fun collected campaign =>
       let campaign_id := obj_id (view_data (object campaign)) in
       match dict_get campaign_id via with
       | Some l => collected ++ l
       | None => collected
       end)
    bridging [].

Definition add_bridged (direct bridge via : mapping) : mapping :=
  fold_left
    (fun direct kv =>
       let collected := collect_bridged via (snd kv) in
       match dict_get (fst kv) direct with
       | Some l => dict_set (fst kv) (l ++ collected) direct
       | None => dict_set (fst kv) collected direct
       end)
    bridge direct.

(** [m[stix_id] if stix_id in m else []] *)
Definition index_or_empty (m : mapping) (stix_id : string) : list Entry :=
  match dict_get stix_id m with
  | Some l => l
  | None => []
  end.

(* ================================================================= *)
(** ** Composite relationship queries *)

(** *** Software/Group *)

Definition get_software_used_by_groups (st : MemoryStore) : result mapping :=
  tools_used_by_group <- get_related st "intrusion-set" "uses" "tool" false ;;
  malware_used_by_group <- get_related st "intrusion-set" "uses" "malware" false ;;
  let software_used_by_group := merge tools_used_by_group malware_used_by_group in
  tools_used_by_campaign <- get_related st "campaign" "uses" "tool" false ;;
  malware_used_by_campaign <- get_related st "campaign" "uses" "malware" false ;;
  let software_used_by_campaign := merge tools_used_by_campaign malware_used_by_campaign in
  campaigns <- get_related st "campaign" "attributed-to" "intrusion-set" true ;;
  Ok (add_bridged software_used_by_group campaigns software_used_by_campaign).

Definition get_groups_using_software (st : MemoryStore) : result mapping :=
  groups_using_tool <- get_related st "intrusion-set" "uses" "tool" true ;;
  groups_using_malware <- get_related st "intrusion-set" "uses" "malware" true ;;
  let groups_using_software := merge groups_using_tool groups_using_malware in
  campaigns_using_tools <- get_related st "campaign" "uses" "tool" true ;;
  campaigns_using_malware <- get_related st "campaign" "uses" "malware" true ;;
  let campaigns_using_software := merge campaigns_using_tools campaigns_using_malware in
  groups <- get_related st "campaign" "attributed-to" "intrusion-set" false ;;
  Ok (add_bridged groups_using_software campaigns_using_software groups).

(** *** Software/Campaign *)

Definition get_software_used_by_campaigns (st : MemoryStore) : result mapping :=
  tools_used_by_campaign <- get_related st "campaign" "uses" "tool" false ;;
  malware_used_by_campaign <- get_related st "campaign" "uses" "malware" false ;;
  Ok (merge tools_used_by_campaign malware_used_by_campaign).

Definition get_campaigns_using_software (st : MemoryStore) : result mapping :=
  campaigns_using_tool <- get_related st "campaign" "uses" "tool" true ;;
  campaigns_using_malware <- get_related st "campaign" "uses" "malware" true ;;
  Ok (merge campaigns_using_tool campaigns_using_malware).

(** *** Campaign/Group *)

Definition get_groups_attributing_to_campaigns (st : MemoryStore) : result mapping :=
  get_related st "campaign" "attributed-to" "intrusion-set" false.

Definition get_campaigns_attributed_to_groups (st : MemoryStore) : result mapping :=
  get_related st "campaign" "attributed-to" "intrusion-set" true.

(** *** Technique/Group *)

Definition get_techniques_used_by_groups (st : MemoryStore) : result mapping :=
  techniques_used_by_groups <- get_related st "intrusion-set" "uses" "attack-pattern" false ;;
  campaigns <- get_related st "campaign" "attributed-to" "intrusion-set" true ;;
  techniques <- get_related st "campaign" "uses" "attack-pattern" false ;;
  Ok (add_bridged techniques_used_by_groups campaigns techniques).

Definition get_groups_using_techniques (st : MemoryStore) : result mapping :=
  groups_using_techniques <- get_related st "intrusion-set" "uses" "attack-pattern" true ;;
  campaigns <- get_related st "campaign" "uses" "attack-pattern" true ;;
  groups <- get_related st "campaign" "attributed-to" "intrusion-set" false ;;
  Ok (add_bridged groups_using_techniques campaigns groups).

(** *** Technique/Campaign *)

Definition get_techniques_used_by_campaigns (st : MemoryStore) : result mapping :=
  get_related st "campaign" "uses" "attack-pattern" false.

Definition get_campaigns_using_techniques (st : MemoryStore) : result mapping :=
  get_related st "campaign" "uses" "attack-pattern" true.

(** *** Technique/Software *)

Definition get_techniques_used_by_software (st : MemoryStore) : result mapping :=
  techniques_by_tool <- get_related st "tool" "uses" "attack-pattern" false ;;
  techniques_by_malware <- get_related st "malware" "uses" "attack-pattern" false ;;
  Ok (dict_union techniques_by_tool techniques_by_malware).

Definition get_software_using_techniques (st : MemoryStore) : result mapping :=
  tools_by_technique_id <- get_related st "tool" "uses" "attack-pattern" true ;;
  malware_by_technique_id <- get_related st "malware" "uses" "attack-pattern" true ;;
  Ok (dict_union tools_by_technique_id malware_by_technique_id).

(** *** Technique/Mitigation *)

Definition get_techniques_mitigated_by_mitigations (st : MemoryStore) : result mapping :=
  get_related st "course-of-action" "mitigates" "attack-pattern" false.

Definition get_mitigations_mitigating_techniques (st : MemoryStore) : result mapping :=
  get_related st "course-of-action" "mitigates" "attack-pattern" true.

(** *** Technique/Subtechnique *)

Definition get_parent_techniques_of_subtechniques (st : MemoryStore) : result mapping :=
  get_related st "attack-pattern" "subtechnique-of" "attack-pattern" false.

Definition get_subtechniques_of_techniques (st : MemoryStore) : result mapping :=
  get_related st "attack-pattern" "subtechnique-of" "attack-pattern" true.

(** *** Technique/Data Component *)

Definition get_techniques_detected_by_datacomponents (st : MemoryStore) : result mapping :=
  get_related st "x-mitre-data-component" "detects" "attack-pattern" false.

Definition get_datacomponents_detecting_techniques (st : MemoryStore) : result mapping :=
  get_related st "x-mitre-data-component" "detects" "attack-pattern" true.

(** *** Single-anchor accessors

    Each computes the full mapping and indexes it, except
    [get_mitigations_mitigating_technique_with_id], whose body in the source
    is its docstring only: it returns [None]. *)

Definition get_software_used_by_group_with_id (st : MemoryStore) (stix_id : string)
  : result (list Entry) :=
  software_used_by_groups <- get_software_used_by_groups st ;;
  Ok (index_or_empty software_used_by_groups stix_id).

Definition get_groups_using_software_with_id (st : MemoryStore) (stix_id : string)
  : result (list Entry) :=
  groups_using_software <- get_groups_using_software st ;;
  Ok (index_or_empty groups_using_software stix_id).

Definition get_software_used_by_campaign_with_id (st : MemoryStore) (stix_id : string)
  : result (list Entry) :=
  software_used_by_campaigns <- get_software_used_by_campaigns st ;;
  Ok (index_or_empty software_used_by_campaigns stix_id).

Definition get_campaigns_using_software_with_id (st : MemoryStore) (stix_id : string)
  : result (list Entry) :=
  campaigns_using_software <- get_campaigns_using_software st ;;
  Ok (index_or_empty campaigns_using_software stix_id).

Definition get_groups_attributing_to_campaign_with_id (st : MemoryStore) (stix_id : string)
  : result (list Entry) :=
  groups_attributing_to_campaigns <- get_groups_attributing_to_campaigns st ;;
  Ok (index_or_empty groups_attributing_to_campaigns stix_id).

Definition get_campaigns_attributed_to_group_with_id (st : MemoryStore) (stix_id : string)
  : result (list Entry) :=
  campaigns_attributed_to_groups <- get_campaigns_attributed_to_groups st ;;
  Ok (index_or_empty campaigns_attributed_to_groups stix_id).

Definition get_techniques_used_by_group_with_id (st : MemoryStore) (stix_id : string)
  : result (list Entry) :=
  techniques_used_by_groups <- get_techniques_used_by_groups st ;;
  Ok (index_or_empty techniques_used_by_groups stix_id).

Definition get_groups_using_technique_with_id (st : MemoryStore) (stix_id : string)
  : result (list Entry) :=
  groups_using_techniques <- get_groups_using_techniques st ;;
  Ok (index_or_empty groups_using_techniques stix_id).

Definition get_techniques_used_by_campaign_with_id (st : MemoryStore) (stix_id : string)
  : result (list Entry) :=
  techniques_used_by_campaigns <- get_techniques_used_by_campaigns st ;;
  Ok (index_or_empty techniques_used_by_campaigns stix_id).

Definition get_campaigns_using_technique_with_id (st : MemoryStore) (stix_id : string)
  : result (list Entry) :=
  campaigns_using_techniques <- get_campaigns_using_techniques st ;;
  Ok (index_or_empty campaigns_using_techniques stix_id).

Definition get_techniques_used_by_software_with_id (st : MemoryStore) (stix_id : string)
  : result (list Entry) :=
  techniques_used_by_software <- get_techniques_used_by_software st ;;
  Ok (index_or_empty techniques_used_by_software stix_id).

Definition get_software_using_technique_with_id (st : MemoryStore) (stix_id : string)
  : result (list Entry) :=
  software_using_techniques <- get_software_using_techniques st ;;
  Ok (index_or_empty software_using_techniques stix_id).

Definition get_techniques_mitigated_by_mitigation_with_id (st : MemoryStore) (stix_id : string)
  : result (list Entry) :=
  techniques_mitigated_by_mitigations <- get_techniques_mitigated_by_mitigations st ;;
  Ok (index_or_empty techniques_mitigated_by_mitigations stix_id).

Definition get_mitigations_mitigating_technique_with_id (st : MemoryStore)
    (stix_id : string) : result (option (list Entry)) :=
  Ok None.

Definition get_parent_technique_of_subtechnique_with_id (st : MemoryStore) (stix_id : string)
  : result (list Entry) :=
  parent_techniques_of_subtechniques <- get_parent_techniques_of_subtechniques st ;;
  Ok (index_or_empty parent_techniques_of_subtechniques stix_id).

Definition get_subtechniques_of_technique_with_id (st : MemoryStore) (stix_id : string)
  : result (list Entry) :=
  subtechniques_of_techniques <- get_subtechniques_of_techniques st ;;
  Ok (index_or_empty subtechniques_of_techniques stix_id).

Definition get_techniques_detected_by_datacomponent_with_id (st : MemoryStore) (stix_id : string)
  : result (list Entry) :=
  techniques_detected_by_datacomponents <- get_techniques_detected_by_datacomponents st ;;
  Ok (index_or_empty techniques_detected_by_datacomponents stix_id).

Definition get_datacomponents_detecting_technique_with_id (st : MemoryStore) (stix_id : string)
  : result (list Entry) :=
  datacomponents_detecting_techniques <- get_datacomponents_detecting_techniques st ;;
  Ok (index_or_empty datacomponents_detecting_techniques stix_id).

(* ================================================================= *)
(** ** Lookup helpers *)

Definition get_object_by_attack_id (st : MemoryStore) (attack_id object_type : string)
  : result TypedView :=
  (* validate type *)
  if negb (str_mem object_type stix_types) then Raise ValueError
  else
    found <- src_query st [ mkFilter "external_references.external_id" OpEq (FStr attack_id);
                            mkFilter "type" OpEq (FStr object_type) ] ;;
    object <- list_index found 0 ;;
    Ok (StixObjectFactory object).

Definition get_object_by_name (st : MemoryStore) (name object_type : string)
  : result TypedView :=
  (* validate type *)
  if negb (str_mem object_type stix_types) then Raise ValueError
  else
    found <- src_query st [ mkFilter "type" OpEq (FStr object_type);
                            mkFilter "name" OpEq (FStr name) ] ;;
    object <- list_index found 0 ;;
    Ok (StixObjectFactory object).

Definition get_group_by_alias (st : MemoryStore) (alias : string)
  : result StixObject :=
  found <- src_query st [ mkFilter "type" OpEq (FStr "intrusion-set");
                          mkFilter "aliases" OpContains (FStr alias) ] ;;
  list_index found 0.

Definition get_campaign_by_alias (st : MemoryStore) (alias : string)
  : result StixObject :=
  found <- src_query st [ mkFilter "type" OpEq (FStr "campaign");
                          mkFilter "aliases" OpContains (FStr alias) ] ;;
  list_index found 0.

Definition get_software_by_alias (st : MemoryStore) (alias : string)
  : result StixObject :=
  let malware_filter := [ mkFilter "type" OpEq (FStr "malware");
                          mkFilter "x_mitre_aliases" OpContains (FStr alias) ] in
  let tool_filter := [ mkFilter "type" OpEq (FStr "tool");
                       mkFilter "x_mitre_aliases" OpContains (FStr alias) ] in
  malware <- src_query st malware_filter ;;
  tools <- src_query st tool_filter ;;
  list_index (malware ++ tools) 0.

(** [[f(x) for x in xs]] where [f] may raise. *)
Fixpoint map_result {A B : Type} (f : A -> result B) (xs : list A)
  : result (list B) :=
  match xs with
  | [] => Ok []
  | x :: xs' => y <- f x ;; ys <- map_result f xs' ;; Ok (y :: ys)
  end.

(** The [revoked-by] query of [get_revoked_by]: the non-revoked objects
    whose identifier is the target of a [revoked-by] edge out of [stix_id]. *)
Definition revoking_query (st : MemoryStore) (stix_id : string)
  : result (list StixObject) :=
  relations <- src_relationships st stix_id "revoked-by" true false ;;
  target_refs <- map_result attr_target_ref relations ;;
  src_query st [ mkFilter "id" OpIn (FStrs target_refs);
                 mkFilter "revoked" OpEq (FBool false) ].

(** The answer of a query is a list; the source's [is not None] test is kept
    as the [None] branch of the match. *)
Definition get_revoked_by (st : MemoryStore) (stix_id : string)
  : result (option StixObject) :=
  found <- revoking_query st stix_id ;;
  let revoked_by : option (list StixObject) := Some found in
  match revoked_by with
  | Some l => first <- list_index l 0 ;; Ok (Some first)
  | None => Ok None
  end.

(* ================================================================= *)
(** ** Typed accessors *)

(** In the accessors below [remove] is the source's keyword argument
    [remove_revoked_deprecated]. *)
Definition get_techniques (st : MemoryStore) (remove : bool)
  : result (list StixObject) :=
  techniques <- src_query st [ mkFilter "type" OpEq (FStr "attack-pattern") ] ;;
  let techniques :=
    if remove then remove_revoked_deprecated techniques else techniques in
  Ok techniques.

Definition get_mitigations (st : MemoryStore) (remove : bool)
  : result (list StixObject) :=
  mitigations <- src_query st [ mkFilter "type" OpEq (FStr "course-of-action") ] ;;
  let mitigations :=
    if remove then remove_revoked_deprecated mitigations else mitigations in
  Ok mitigations.

Definition get_groups (st : MemoryStore) (remove : bool)
  : result (list StixObject) :=
  groups <- src_query st [ mkFilter "type" OpEq (FStr "intrusion-set") ] ;;
  let groups := if remove then remove_revoked_deprecated groups else groups in
  Ok groups.

Definition get_software (st : MemoryStore) (remove : bool)
  : result (list StixObject) :=
  tools <- src_query st [ mkFilter "type" OpEq (FStr "tool") ] ;;
  malware <- src_query st [ mkFilter "type" OpEq (FStr "malware") ] ;;
  let software := tools ++ malware in
  let software := if remove then remove_revoked_deprecated software else software in
  Ok software.

Definition get_campaigns (st : MemoryStore) (remove : bool)
  : result (list StixObject) :=
  campaigns <- src_query st [ mkFilter "type" OpEq (FStr "campaign") ] ;;
  let campaigns :=
    if remove then remove_revoked_deprecated campaigns else campaigns in
  Ok campaigns.

(* ================================================================= *)
(** ** Techniques of a group's software *)

(** stix2's [get_type_from_id]: [stix_id.split('--', 1)[0]], the part of the
    identifier before its first [--], the whole of it when there is none. *)
Fixpoint get_type_from_id (stix_id : string) : string :=
  match stix_id with
  | EmptyString => EmptyString
  | String c rest =>
      if String.prefix "--" stix_id then EmptyString
      else String c (get_type_from_id rest)
  end.

Definition get_object_type (st : MemoryStore) (stix_id : string) : string :=
  get_type_from_id stix_id.

(** [[x for x in xs if cond(x)]] where [cond] may raise. *)
Fixpoint filter_result {A : Type} (cond : A -> result bool) (xs : list A)
  : result (list A) :=
  match xs with
  | [] => Ok []
  | x :: xs' =>
      keep <- cond x ;;
      kept <- filter_result cond xs' ;;
      Ok (if keep then x :: kept else kept)
  end.

Definition get_techniques_used_by_group_software (st : MemoryStore)
    (group_stix_id : string) : result (list StixObject) :=
  (* get the malware, tools that the group uses *)
  relations <- src_relationships st group_stix_id "uses" true false ;;
  group_uses <-
    filter_result
      (fun r => target <- attr_target_ref r ;;
                Ok (str_mem (get_type_from_id target) [ "malware"; "tool" ]))
      relations ;;
  (* get the technique stix ids that the malware, tools use *)
  source_refs <- map_result attr_target_ref group_uses ;;
  software_uses <-
    src_query st [ mkFilter "type" OpEq (FStr "relationship");
                   mkFilter "relationship_type" OpEq (FStr "uses");
                   mkFilter "source_ref" OpIn (FStrs source_refs) ] ;;
  (* get the techniques themselves *)
  technique_ids <- map_result attr_target_ref software_uses ;;
  src_query st [ mkFilter "type" OpEq (FStr "attack-pattern");
                 mkFilter "id" OpIn (FStrs technique_ids) ].

(* ================================================================= *)
(** ** Example stores *)

Module Examples.

Definition entity (id type name : string) (deprecated revoked : option bool)
  : Entity :=
  {| ent_id := id; ent_type := type; ent_name := Some name;
     ent_aliases := None; ent_x_mitre_aliases := None;
     ent_external_references := None;
     ent_x_mitre_deprecated := deprecated; ent_revoked := revoked |}.

Definition edge (id rtype src tgt : string) : Relationship :=
  {| rel_id := id; relationship_type := rtype;
     source_ref := src; target_ref := tgt;
     rel_x_mitre_deprecated := None; rel_revoked := Some false |}.

Definition G_id := "intrusion-set--00000000-0000-4000-8000-00000000000a".
Definition W_id := "tool--00000000-0000-4000-8000-00000000000b".
Definition C_id := "campaign--00000000-0000-4000-8000-00000000000c".
Definition M_id := "malware--00000000-0000-4000-8000-00000000000d".
Definition T_id := "attack-pattern--00000000-0000-4000-8000-00000000000e".

Definition G_entity := entity G_id "intrusion-set" "G" None (Some false).
Definition G := SDO G_entity.
Definition W_entity := entity W_id "tool" "W" None (Some false).
Definition W := SDO W_entity.
Definition C_entity := entity C_id "campaign" "C" None (Some false).
Definition C := SDO C_entity.
Definition M_entity := entity M_id "malware" "M" None (Some false).
Definition M := SDO M_entity.
Definition T_entity := entity T_id "attack-pattern" "T" None (Some false).
Definition T := SDO T_entity.

Definition G_uses_W := edge "relationship--1" "uses" G_id W_id.
Definition C_attributed_to_G := edge "relationship--2" "attributed-to" C_id G_id.
Definition C_uses_M := edge "relationship--3" "uses" C_id M_id.
Definition W_uses_T := edge "relationship--4" "uses" W_id T_id.
Definition M_uses_T := edge "relationship--5" "uses" M_id T_id.

Definition entry (o : StixObject) (r : Relationship) : Entry :=
  {| object := StixObjectFactory o; relationship := r |}.

(** One group using one tool, one campaign attributed to the group and
    using one malware. *)
Definition scenario_objects : list StixObject :=
  [ G; W; C; M; SRO G_uses_W; SRO C_attributed_to_G; SRO C_uses_M ].

Definition scenario (strict : bool) : MemoryStore :=
  {| objects := scenario_objects; validating := strict |}.

(** The scenario loaded in another order, the malware edge first. *)
Definition scenario_shuffled : MemoryStore :=
  {| objects := [ SRO C_uses_M; M; SRO C_attributed_to_G; W; C; SRO G_uses_W; G ];
     validating := true |}.

(** The tool is deprecated but not revoked. *)
Definition W_deprecated := SDO (entity W_id "tool" "W" (Some true) (Some false)).

Definition deprecated_target : MemoryStore :=
  {| objects := [ G; W_deprecated; SRO G_uses_W ]; validating := true |}.

(** The tool the edge points to is revoked. *)
Definition W_revoked := SDO (entity W_id "tool" "W" None (Some true)).

Definition revoked_target : MemoryStore :=
  {| objects := [ G; W_revoked; SRO G_uses_W ]; validating := true |}.

(** The group the edge starts from is revoked. *)
Definition G_revoked := SDO (entity G_id "intrusion-set" "G" None (Some true)).

Definition revoked_source : MemoryStore :=
  {| objects := [ G_revoked; W; SRO G_uses_W ]; validating := true |}.

(** A technique used by one tool and by one malware. *)
Definition shared_technique : MemoryStore :=
  {| objects := [ T; W; M; SRO W_uses_T; SRO M_uses_T ]; validating := true |}.

Definition A_id := "course-of-action--00000000-0000-4000-8000-00000000000f".
Definition A := SDO (entity A_id "course-of-action" "A" None (Some false)).
Definition A_mitigates_T := edge "relationship--6" "mitigates" A_id T_id.

(** A technique with one mitigation. *)
Definition mitigated_technique : MemoryStore :=
  {| objects := [ T; A; SRO A_mitigates_T ]; validating := true |}.

Definition T_old_id := "attack-pattern--00000000-0000-4000-8000-000000000010".
Definition T_old := SDO (entity T_old_id "attack-pattern" "T-old" None (Some true)).
Definition T_old_revoked_by_T := edge "relationship--7" "revoked-by" T_old_id T_id.

(** An old technique, revoked by a current one. *)
Definition revoked_technique : MemoryStore :=
  {| objects := [ T_old; T; SRO T_old_revoked_by_T ]; validating := true |}.

(** The scenario with the group's edge to the tool deprecated, not revoked. *)
Definition G_uses_W_deprecated : Relationship :=
  {| rel_id := "relationship--1"; relationship_type := "uses";
     source_ref := G_id; target_ref := W_id;
     rel_x_mitre_deprecated := Some true; rel_revoked := Some false |}.

Definition scenario_deprecated_edge : MemoryStore :=
  {| objects := [ G; W; C; M;
                  SRO G_uses_W_deprecated; SRO C_attributed_to_G; SRO C_uses_M ];
     validating := true |}.

(** A group known under two aliases. *)
Definition G_aliased : StixObject :=
  SDO {| ent_id := G_id; ent_type := "intrusion-set"; ent_name := Some "G";
         ent_aliases := Some [ "APT28"; "Fancy Bear" ];
         ent_x_mitre_aliases := None; ent_external_references := None;
         ent_x_mitre_deprecated := None; ent_revoked := Some false |}.

Definition aliased_group : MemoryStore :=
  {| objects := [ G_aliased ]; validating := true |}.

End Examples.

(* ================================================================= *)
(** * Vocabulary of the statements *)

Definition is_SRO (o : StixObject) : bool :=
  match o with
  | SRO _ => true
  | SDO _ => false
  end.

(** [revoked] is present with value [False]. *)
Definition revoked_False (o : StixObject) : bool :=
  match obj_revoked o with
  | Some false => true
  | _ => false
  end.

(** [x_mitre_deprecated] is not present with value [True]. *)
Definition not_deprecated (o : StixObject) : bool :=
  match obj_x_mitre_deprecated o with
  | Some true => false
  | _ => true
  end.

(** An edge the resolver keeps for relationship type [rel_type]. *)
Definition retained_edge (rel_type : string) (o : StixObject) : bool :=
  match o with
  | SRO r => (relationship_type r =? rel_type) && revoked_False o && not_deprecated o
  | SDO _ => false
  end.

(** An object the resolver can resolve a related identifier to. *)
Definition resolvable (type : string) (o : StixObject) : bool :=
  (obj_type o =? type) && revoked_False o.

Definition edge_selected (source_type target_type : string) (r : Relationship) : bool :=
  str_in source_type (source_ref r) && str_in target_type (target_ref r).

(** The key an edge is filed under, and the identifier it relates to. *)
Definition anchor_of (reverse : bool) (r : Relationship) : string :=
  if reverse then target_ref r else source_ref r.

Definition related_of (reverse : bool) (r : Relationship) : string :=
  if reverse then source_ref r else target_ref r.

(** The selected edges of [os] anchored at [k], in order. *)
Definition anchored (source_type target_type : string) (reverse : bool)
    (k : string) (os : list StixObject) : list Relationship :=
  flat_map
    (fun o =>
       match o with
       | SRO r =>
           if edge_selected source_type target_type r && (anchor_of reverse r =? k)
           then [r] else []
       | SDO _ => []
       end)
    os.

Definition mk_related (reverse : bool) (r : Relationship) : Related :=
  {| related_relationship := r; related_id := related_of reverse r |}.

(** Appending to the entry of a key that may not exist yet. *)
Definition extend_opt {A : Type} (cur : option (list A)) (new : list A)
  : option (list A) :=
  match new with
  | [] => cur
  | _ => Some (get_default cur [] ++ new)
  end.

(** What an identifier resolves to: the last of [targets] carrying it. *)
Definition last_with_id (k : string) (targets : list StixObject)
  : option StixObject :=
  fold_left (fun found t => if obj_id t =? k then Some t else found) targets None.

(** One pass of the inner loop of [get_related]. *)
Definition resolve_one (id_to_target : dict StixObject) (related : Related)
  : list Entry :=
  match dict_get (related_id related) id_to_target with
  | None => []
  | Some target =>
      [ {| object := StixObjectFactory target;
           relationship := related_relationship related |} ]
  end.

(** The type tag of the related side of the mapping. *)
Definition other_type (source_type target_type : string) (reverse : bool) : string :=
  if reverse then source_type else target_type.

(** The kept edges anchored at [k], in store order. *)
Definition edges_anchored (st : MemoryStore)
    (source_type rel_type target_type : string) (reverse : bool) (k : string)
  : list Relationship :=
  anchored source_type target_type reverse k
           (filter (retained_edge rel_type) (objects st)).

(** The store object a related identifier resolves to. *)
Definition target_of (st : MemoryStore) (type : string) (id : string)
  : option StixObject :=
  last_with_id id (filter (resolvable type) (objects st)).

Definition entry_of (st : MemoryStore) (type : string) (reverse : bool)
    (r : Relationship) : list Entry :=
  match target_of st type (related_of reverse r) with
  | Some target => [ {| object := StixObjectFactory target; relationship := r |} ]
  | None => []
  end.

Definition entries_at (st : MemoryStore)
    (source_type rel_type target_type : string) (reverse : bool) (k : string)
  : list Entry :=
  flat_map (entry_of st (other_type source_type target_type reverse) reverse)
           (edges_anchored st source_type rel_type target_type reverse k).

(** Whether the two queries issued by [get_related] pass the store. *)
Definition store_accepts (st : MemoryStore) (rel_type other : string) : bool :=
  negb (validating st)
  || (str_mem rel_type relationship_types
      && str_mem other ("relationship" :: stix_types)).

(** As the contract words it: a flag counts only when it is present and
    true; an element is kept when neither flag counts. *)
Definition present_and_true (flag : option bool) : bool :=
  match flag with
  | Some true => true
  | _ => false
  end.

Definition kept (x : StixObject) : bool :=
  negb (present_and_true (obj_x_mitre_deprecated x))
  && negb (present_and_true (obj_revoked x)).

(** [subsequence s l]: [s] is obtained from [l] by deleting elements. *)
Inductive subsequence {A : Type} : list A -> list A -> Prop :=
| sub_nil : subsequence [] []
| sub_skip x s l : subsequence s l -> subsequence s (x :: l)
| sub_take x s l : subsequence s l -> subsequence (x :: s) (x :: l).

(** Keys are unique: the invariant of a Python dictionary. *)
Definition dict_wf {V : Type} (d : dict V) : Prop := NoDup (dict_keys d).


(** [y] is listed under key [x]: some entry of [m[x]] holds the object
    with identifier [y]. *)
Definition related_in (m : mapping) (x y : string) : Prop :=
  exists v e, dict_get x m = Some v /\ In e v
              /\ obj_id (view_data (object e)) = y.

(** The tag [get_related] files edges under. *)
Definition anchor_type (source_type target_type : string) (reverse : bool) : string :=
  if reverse then target_type else source_type.

(** What the lookups select on; an alias is matched as a substring of one
    of the object's aliases. *)
Definition of_type (type : string) (o : StixObject) : bool :=
  obj_type o =? type.

Definition has_name (name : string) (o : StixObject) : bool :=
  match o with
  | SDO e => match ent_name e with
             | Some n => n =? name
             | None => false
             end
  | SRO _ => false
  end.

Definition has_alias (alias : string) (o : StixObject) : bool :=
  match o with
  | SDO e => match ent_aliases e with
             | Some l => existsb (str_in alias) l
             | None => false
             end
  | SRO _ => false
  end.

Definition has_x_mitre_alias (alias : string) (o : StixObject) : bool :=
  match o with
  | SDO e => match ent_x_mitre_aliases e with
             | Some l => existsb (str_in alias) l
             | None => false
             end
  | SRO _ => false
  end.

Definition has_attack_id (attack_id : string) (o : StixObject) : bool :=
  match o with
  | SDO e => match ent_external_references e with
             | Some refs => existsb
                              (fun r => match external_id r with
                                        | Some i => attack_id =? i
                                        | None => false
                                        end) refs
             | None => false
             end
  | SRO _ => false
  end.

(** The identifiers that [revoked-by] edges out of [stix_id] point to. *)
Definition revoked_by_refs (st : MemoryStore) (stix_id : string) : list string :=
  flat_map
    (fun o =>
       match o with
       | SRO r =>
           if (relationship_type r =? "revoked-by") && (source_ref r =? stix_id)
           then [target_ref r] else []
       | SDO _ => []
       end)
    (objects st).

(** The non-revoked objects of the store that revoke [stix_id]. *)
Definition revokers (st : MemoryStore) (stix_id : string) : list StixObject :=
  filter (fun o => str_mem (obj_id o) (revoked_by_refs st stix_id) && revoked_False o)
         (objects st).

(** What a single-anchor accessor is to return, given the result of the
    full-mapping query: the value of the key, or the empty list. *)
Definition indexes (full : result mapping) (stix_id : string)
    (answer : result (list Entry)) : Prop :=
  match full with
  | Ok m => answer = Ok (match dict_get stix_id m with
                         | Some v => v
                         | None => []
                         end)
  | Raise e => answer = Raise e
  end.

(** The store of the two-hop scenario: a group [g] that uses a tool [w], a
    campaign [c] attributed to [g] that uses a malware [m], and nothing else.
    Identifiers carry the type tag of their object, as STIX identifiers do;
    distinct objects have distinct identifiers; nothing is revoked or
    deprecated. *)
Record group_campaign_scenario (st : MemoryStore) (g w c m : Entity)
    (g_uses_w c_attributed_to_g c_uses_m : Relationship) : Prop := {
  sc_objects :
    Permutation (objects st)
      [ SDO g; SDO w; SDO c; SDO m;
        SRO g_uses_w; SRO c_attributed_to_g; SRO c_uses_m ];
  sc_group :
    ent_type g = "intrusion-set" /\ str_in "intrusion-set" (ent_id g) = true;
  sc_tool :
    ent_type w = "tool" /\ str_in "tool" (ent_id w) = true;
  sc_campaign :
    ent_type c = "campaign" /\ str_in "campaign" (ent_id c) = true;
  sc_malware :
    ent_type m = "malware" /\ str_in "malware" (ent_id m) = true;
  sc_distinct :
    NoDup [ ent_id g; ent_id w; ent_id c; ent_id m ];
  sc_entities_current :
    forall e, In e [ g; w; c; m ] ->
              ent_revoked e = Some false /\ ent_x_mitre_deprecated e <> Some true;
  sc_g_uses_w :
    relationship_type g_uses_w = "uses"
    /\ source_ref g_uses_w = ent_id g /\ target_ref g_uses_w = ent_id w;
  sc_c_attributed_to_g :
    relationship_type c_attributed_to_g = "attributed-to"
    /\ source_ref c_attributed_to_g = ent_id c
    /\ target_ref c_attributed_to_g = ent_id g;
  sc_c_uses_m :
    relationship_type c_uses_m = "uses"
    /\ source_ref c_uses_m = ent_id c /\ target_ref c_uses_m = ent_id m;
  sc_edges_current :
    forall r, In r [ g_uses_w; c_attributed_to_g; c_uses_m ] ->
              rel_revoked r = Some false /\ rel_x_mitre_deprecated r <> Some true
}.

(** The same objects in a given order, for the same query engine. *)
Definition reordered (st : MemoryStore) (os : list StixObject) : MemoryStore :=
  {| objects := os; validating := validating st |}.

(** The entries a bridged composite lists under [k]: the direct ones, then
    for each bridging object listed under [k], in order, the entries listed
    under that object. *)
Definition bridged_value (direct bridge via : mapping) (k : string) : list Entry :=
  index_or_empty direct k
  ++ flat_map (fun bridging =>
                 index_or_empty via (obj_id (view_data (object bridging))))
              (index_or_empty bridge k).

(** The identifier of the object an entry holds. *)
Definition entry_id (e : Entry) : string := obj_id (view_data (object e)).

(** [e] pairs a kept edge of type [rel_type], selected by the two type tags
    and anchored at [k], with the store object its related identifier
    resolves to. *)
Definition lists_edge (st : MemoryStore) (source_type rel_type target_type : string)
    (reverse : bool) (k : string) (e : Entry) : Prop :=
  In (SRO (relationship e)) (objects st)
  /\ retained_edge rel_type (SRO (relationship e)) = true
  /\ edge_selected source_type target_type (relationship e) = true
  /\ anchor_of reverse (relationship e) = k
  /\ exists t,
       target_of st (other_type source_type target_type reverse)
                 (related_of reverse (relationship e)) = Some t
       /\ object e = StixObjectFactory t.

(** What a typed accessor selects: the objects of the type, without the
    revoked and deprecated ones when [remove] is set. *)
Definition selected_by (type : string) (remove : bool) (o : StixObject) : bool :=
  of_type type o && (negb remove || kept o).

(** A [uses] edge of the store out of [group_stix_id] to an identifier typed
    malware or tool. *)
Definition uses_software (group_stix_id : string) (o : StixObject) : bool :=
  match o with
  | SRO r =>
      (relationship_type r =? "uses") && (source_ref r =? group_stix_id)
      && str_mem (get_type_from_id (target_ref r)) [ "malware"; "tool" ]
  | SDO _ => false
  end.

(** The identifiers the edges of [os] selected by [p] point to, in order. *)
Definition target_refs (p : StixObject -> bool) (os : list StixObject) : list string :=
  flat_map (fun o => match o with
                     | SRO r => if p (SRO r) then [target_ref r] else []
                     | SDO _ => []
                     end) os.

(** A [uses] edge of the store out of one of [sources]. *)
Definition uses_from (sources : list string) (o : StixObject) : bool :=
  match o with
  | SRO r => (relationship_type r =? "uses") && str_mem (source_ref r) sources
  | SDO _ => false
  end.
(* ================================================================= *)
(** * Properties *)

(** ** Dictionaries *)

Section DictFacts.
Variable V : Type.
Implicit Types (d : dict V) (k : string) (v : V).

Lemma dict_get_set k k' v d :
  dict_get k (dict_set k' v d) = if k' =? k then Some v else dict_get k d.
Proof.
  induction d as [|[k0 v0] d IH]; simpl.
  - destruct (k' =? k); reflexivity.
  - destruct (k0 =? k') eqn:E0; simpl.
    + apply String.eqb_eq in E0; subst k0.
      destruct (k' =? k); reflexivity.
    + rewrite IH. destruct (k0 =? k) eqn:E1; [|reflexivity].
      apply String.eqb_eq in E1; subst k0. now rewrite String.eqb_sym, E0.
Qed.

Lemma dict_get_set_eq k v d : dict_get k (dict_set k v d) = Some v.
Proof. now rewrite dict_get_set, String.eqb_refl. Qed.

Lemma dict_get_set_neq k k' v d :
  k' <> k -> dict_get k (dict_set k' v d) = dict_get k d.
Proof.
  intros H. rewrite dict_get_set.
  apply String.eqb_neq in H. now rewrite H.
Qed.

Lemma dict_get_In k v d : dict_get k d = Some v -> In (k, v) d.
Proof.
  induction d as [|[k0 v0] d IH]; simpl; [discriminate|].
  destruct (k0 =? k) eqn:E.
  - apply String.eqb_eq in E. intros [= ->]. subst. now left.
  - intros H. right. auto.
Qed.

Lemma dict_get_None k d : dict_get k d = None <-> ~ In k (dict_keys d).
Proof.
  induction d as [|[k0 v0] d IH]; simpl.
  - split; auto.
  - destruct (k0 =? k) eqn:E.
    + apply String.eqb_eq in E. split; [discriminate|]. intros H. exfalso. auto.
    + apply String.eqb_neq in E. rewrite IH. split.
      * intros H [H1|H1]; auto.
      * intros H H1. apply H. now right.
Qed.

Lemma dict_keys_set k v d :
  dict_keys (dict_set k v d) =
  if dict_mem k d then dict_keys d else dict_keys d ++ [k].
Proof.
  unfold dict_mem. induction d as [|[k0 v0] d IH]; simpl; [reflexivity|].
  destruct (k0 =? k) eqn:E; simpl.
  - apply String.eqb_eq in E. now subst.
  - rewrite IH. now destruct (dict_get k d).
Qed.

Lemma dict_wf_nil : dict_wf (@nil (string * V)).
Proof. constructor. Qed.

Lemma dict_wf_set k v d : dict_wf d -> dict_wf (dict_set k v d).
Proof.
  unfold dict_wf. intros H. rewrite dict_keys_set.
  unfold dict_mem. destruct (dict_get k d) eqn:E; [assumption|].
  apply dict_get_None in E.
  apply NoDup_rev in H. rewrite <- (rev_involutive (_ ++ _)).
  apply NoDup_rev. rewrite rev_app_distr. simpl.
  constructor; [|assumption]. now rewrite <- in_rev.
Qed.

End DictFacts.

(** A loop over the items of a dictionary that assigns one key of an
    accumulator per item. *)
Section FoldUpdate.
Variables (V B : Type) (g : B -> option V -> V).
Variable step : dict V -> string * B -> dict V.
Hypothesis step_eq : forall acc kv,
  step acc kv = dict_set (fst kv) (g (snd kv) (dict_get (fst kv) acc)) acc.

Lemma fold_update_wf (items : dict B) acc :
  dict_wf acc -> dict_wf (fold_left step items acc).
Proof.
  revert acc. induction items as [|kv items IH]; simpl; intros acc H.
  - assumption.
  - apply IH. rewrite step_eq. now apply dict_wf_set.
Qed.

Lemma fold_update_get (items : dict B) acc k :
  NoDup (dict_keys items) ->
  dict_get k (fold_left step items acc) =
  match dict_get k items with
  | Some b => Some (g b (dict_get k acc))
  | None => dict_get k acc
  end.
Proof.
  revert acc. induction items as [|[k0 b0] items IH]; simpl; intros acc H.
  - reflexivity.
  - inversion H as [|? ? Hnotin Hnodup]; subst.
    rewrite (IH _ Hnodup), step_eq. simpl. rewrite dict_get_set.
    destruct (k0 =? k) eqn:E.
    + apply String.eqb_eq in E. subst k0.
      apply dict_get_None in Hnotin. now rewrite Hnotin.
    + reflexivity.
Qed.
End FoldUpdate.

(* ================================================================= *)
(** ** The store's queries *)

Lemma src_query_Ok st filters l :
  src_query st filters = Ok l ->
  l = filter (fun o => forallb (check_filter o) filters) (objects st).
Proof.
  unfold src_query. destruct (_ && _); [discriminate|]. now intros [= <-].
Qed.

Lemma src_query_accepted st filters :
  validating st = false \/ forallb filter_accepted filters = true ->
  src_query st filters =
  Ok (filter (fun o => forallb (check_filter o) filters) (objects st)).
Proof.
  unfold src_query. intros [-> | ->]; [reflexivity|].
  now rewrite andb_false_r.
Qed.

Lemma filter_filter {A : Type} (p q : A -> bool) (l : list A) :
  filter q (filter p l) = filter (fun x => p x && q x) l.
Proof.
  induction l as [|x l IH]; simpl; [reflexivity|].
  destruct (p x); simpl; [|assumption].
  destruct (q x); now rewrite IH.
Qed.

Lemma edge_filters_retained rel_type o :
  forallb (check_filter o)
    [ mkFilter "type" OpEq (FStr "relationship");
      mkFilter "relationship_type" OpEq (FStr rel_type);
      mkFilter "revoked" OpEq (FBool false) ]
  && (is_False (get_default (obj_x_mitre_deprecated o) false)
      && is_False (get_default (obj_revoked o) false))
  = retained_edge rel_type o.
Proof.
  destruct o as [e|r]; unfold check_filter, get_property, retained_edge,
    revoked_False, not_deprecated; simpl.
  - now destruct (ent_type e =? "relationship").
  - destruct (relationship_type r =? rel_type); simpl; [|reflexivity].
    destruct (rel_revoked r) as [[|]|]; simpl; try reflexivity.
    now destruct (rel_x_mitre_deprecated r) as [[|]|].
Qed.

Lemma target_filters_resolvable type o :
  forallb (check_filter o)
    [ mkFilter "type" OpEq (FStr type); mkFilter "revoked" OpEq (FBool false) ]
  = resolvable type o.
Proof.
  unfold check_filter, get_property, resolvable, revoked_False; simpl.
  destruct (obj_type o =? type); simpl; [|reflexivity].
  destruct (obj_revoked o) as [[|]|]; reflexivity.
Qed.

(* ================================================================= *)
(** ** The grouping loop of [get_related] *)

Lemma extend_opt_app {A : Type} (cur : option (list A)) (a b : list A) :
  extend_opt (extend_opt cur a) b = extend_opt cur (a ++ b).
Proof.
  destruct a as [|x a]; simpl; [reflexivity|].
  destruct b as [|y b]; simpl.
  - now rewrite app_nil_r.
  - now rewrite <- app_assoc.
Qed.

Lemma add_related_SRO source_type target_type reverse d r :
  add_related source_type target_type reverse d (SRO r) =
  Ok (if edge_selected source_type target_type r
      then dict_set (anchor_of reverse r)
             (get_default (dict_get (anchor_of reverse r) d) []
              ++ [mk_related reverse r]) d
      else d).
Proof.
  unfold add_related, edge_selected, anchor_of, mk_related, related_of,
    dict_mem, dict_index.
  destruct (str_in source_type (source_ref r) && str_in target_type (target_ref r));
    [|reflexivity].
  destruct reverse; simpl.
  - rewrite andb_false_r, andb_true_r. simpl.
    now destruct (dict_get (target_ref r) d).
  - rewrite andb_false_r, andb_true_r, orb_false_r.
    now destruct (dict_get (source_ref r) d).
Qed.

Lemma for_each_add_related source_type target_type reverse os :
  forallb is_SRO os = true ->
  forall d, exists d',
    for_each os d (add_related source_type target_type reverse) = Ok d' /\
    (dict_wf d -> dict_wf d') /\
    forall k, dict_get k d' =
              extend_opt (dict_get k d)
                (map (mk_related reverse)
                     (anchored source_type target_type reverse k os)).
Proof.
  induction os as [|o os IH]; simpl; intros Hs d.
  - exists d. auto.
  - apply andb_true_iff in Hs as [Ho Hs]. destruct o as [e|r]; [discriminate|].
    rewrite add_related_SRO. simpl.
    destruct (IH Hs (if edge_selected source_type target_type r
                     then dict_set (anchor_of reverse r)
                            (get_default (dict_get (anchor_of reverse r) d) []
                             ++ [mk_related reverse r]) d
                     else d)) as (d' & Hrun & Hwf & Hget).
    exists d'. split; [assumption|]. split.
    + intros H. apply Hwf. destruct (edge_selected _ _ r); [|assumption].
      now apply dict_wf_set.
    + intros k. rewrite Hget, map_app, <- extend_opt_app. f_equal.
      destruct (edge_selected source_type target_type r); simpl; [|reflexivity].
      rewrite dict_get_set.
      destruct (anchor_of reverse r =? k) eqn:E; simpl; [|reflexivity].
      apply String.eqb_eq in E. now subst k.
Qed.

(* ================================================================= *)
(** ** Resolving related identifiers *)

Lemma fold_set_get k (targets : list StixObject) (d : dict StixObject) :
  dict_get k (fold_left (fun d t => dict_set (obj_id t) t d) targets d) =
  fold_left (fun found t => if obj_id t =? k then Some t else found)
            targets (dict_get k d).
Proof.
  revert d. induction targets as [|t ts IH]; simpl; intros d; [reflexivity|].
  now rewrite IH, dict_get_set.
Qed.

Lemma build_id_to_target_get k targets :
  dict_get k (build_id_to_target targets) = last_with_id k targets.
Proof. unfold build_id_to_target. now rewrite fold_set_get. Qed.

Lemma fold_last_Some k (targets : list StixObject) acc t :
  fold_left (fun found t => if obj_id t =? k then Some t else found) targets acc
    = Some t ->
  (In t targets /\ obj_id t = k) \/ acc = Some t.
Proof.
  revert acc. induction targets as [|t0 ts IH]; simpl; intros acc H.
  - now right.
  - destruct (IH _ H) as [[Hin Hid] | Hacc].
    + left. auto.
    + destruct (obj_id t0 =? k) eqn:E.
      * apply String.eqb_eq in E. injection Hacc as <-. left. auto.
      * now right.
Qed.

Lemma last_with_id_Some k targets t :
  last_with_id k targets = Some t -> In t targets /\ obj_id t = k.
Proof.
  intros H. destruct (fold_last_Some _ _ _ H) as [H1 | H1]; [assumption|discriminate].
Qed.

Lemma fold_last_filter k (targets : list StixObject) acc :
  fold_left (fun found t => if obj_id t =? k then Some t else found) targets acc =
  fold_left (fun found t => if obj_id t =? k then Some t else found)
            (filter (fun t => obj_id t =? k) targets) acc.
Proof.
  revert acc. induction targets as [|t0 ts IH]; simpl; intros acc; [reflexivity|].
  destruct (obj_id t0 =? k) eqn:E; simpl; rewrite ?E; apply IH.
Qed.

Lemma last_with_id_filter k targets :
  last_with_id k targets = last_with_id k (filter (fun t => obj_id t =? k) targets).
Proof. apply fold_last_filter. Qed.

Lemma fold_last_keeps k (targets : list StixObject) s :
  exists t,
    fold_left (fun found t => if obj_id t =? k then Some t else found)
              targets (Some s) = Some t.
Proof.
  revert s. induction targets as [|t0 ts IH]; simpl; intros s.
  - now exists s.
  - destruct (obj_id t0 =? k); apply IH.
Qed.

Lemma last_with_id_None k targets :
  last_with_id k targets = None <-> filter (fun t => obj_id t =? k) targets = [].
Proof.
  rewrite last_with_id_filter. split.
  - destruct (filter _ targets) as [|t ts] eqn:E; [reflexivity|].
    assert (Hid : (obj_id t =? k) = true).
    { assert (Hin : In t (filter (fun t => obj_id t =? k) targets))
        by (rewrite E; now left).
      now apply filter_In in Hin. }
    unfold last_with_id. simpl. rewrite Hid.
    destruct (fold_last_keeps k ts t) as [t' ->]. discriminate.
  - intros ->. reflexivity.
Qed.

Lemma last_with_id_single k targets t :
  filter (fun t => obj_id t =? k) targets = [t] ->
  last_with_id k targets = Some t.
Proof.
  intros H. rewrite last_with_id_filter, H.
  assert (Hid : (obj_id t =? k) = true).
  { assert (Hin : In t (filter (fun t => obj_id t =? k) targets))
      by (rewrite H; now left).
    now apply filter_In in Hin. }
  unfold last_with_id. simpl. now rewrite Hid.
Qed.

Lemma resolve_related_flat_map id_to_target rels :
  resolve_related id_to_target rels = flat_map (resolve_one id_to_target) rels.
Proof.
  unfold resolve_related.
  enough (H : forall acc,
             fold_left
               (fun value related =>
                  match dict_get (related_id related) id_to_target with
                  | None => value
                  | Some target =>
                      value ++ [ {| object := StixObjectFactory target;
                                    relationship := related_relationship related |} ]
                  end) rels acc
             = acc ++ flat_map (resolve_one id_to_target) rels)
    by apply H.
  induction rels as [|r rels IH]; simpl; intros acc.
  - now rewrite app_nil_r.
  - rewrite IH. unfold resolve_one at 2.
    destruct (dict_get (related_id r) id_to_target); simpl; [|reflexivity].
    now rewrite <- app_assoc.
Qed.

Lemma build_output_get id_to_target id_to_related k :
  dict_wf id_to_related ->
  dict_get k (build_output id_to_target id_to_related) =
  option_map (resolve_related id_to_target) (dict_get k id_to_related).
Proof.
  intros Hwf. unfold build_output.
  rewrite (@fold_update_get _ _ (fun rels _ => resolve_related id_to_target rels));
    [|reflexivity|assumption].
  now destruct (dict_get k id_to_related).
Qed.

Lemma build_output_wf id_to_target id_to_related :
  dict_wf (build_output id_to_target id_to_related).
Proof.
  unfold build_output.
  apply (@fold_update_wf _ _ (fun rels _ => resolve_related id_to_target rels));
    [reflexivity|apply dict_wf_nil].
Qed.

(* ================================================================= *)
(** ** What [get_related] computes *)

Lemma flat_map_map {A B C : Type} (f : B -> list C) (g : A -> B) (l : list A) :
  flat_map f (map g l) = flat_map (fun x => f (g x)) l.
Proof.
  induction l as [|x l IH]; simpl; [reflexivity|]. now rewrite IH.
Qed.

Lemma retained_edges_SRO rel_type os :
  forallb is_SRO (filter (retained_edge rel_type) os) = true.
Proof.
  apply forallb_forall. intros o Ho. apply filter_In in Ho as [_ Ho].
  now destruct o.
Qed.

Lemma edge_query st rel_type :
  src_query st [ mkFilter "type" OpEq (FStr "relationship");
                 mkFilter "relationship_type" OpEq (FStr rel_type);
                 mkFilter "revoked" OpEq (FBool false) ] =
  if validating st && negb (str_mem rel_type relationship_types)
  then Raise InvalidFilter
  else Ok (filter (fun o =>
                     forallb (check_filter o)
                       [ mkFilter "type" OpEq (FStr "relationship");
                         mkFilter "relationship_type" OpEq (FStr rel_type);
                         mkFilter "revoked" OpEq (FBool false) ])
                  (objects st)).
Proof.
  unfold src_query.
  replace (forallb filter_accepted _) with (str_mem rel_type relationship_types);
    [reflexivity|].
  unfold filter_accepted. cbn -[str_mem]. now rewrite andb_true_r.
Qed.

Lemma target_query st type :
  src_query st [ mkFilter "type" OpEq (FStr type);
                 mkFilter "revoked" OpEq (FBool false) ] =
  if validating st && negb (str_mem type ("relationship" :: stix_types))
  then Raise InvalidFilter
  else Ok (filter (resolvable type) (objects st)).
Proof.
  unfold src_query.
  replace (forallb filter_accepted _)
    with (str_mem type ("relationship" :: stix_types)).
  - destruct (_ && _); [reflexivity|]. f_equal.
    apply filter_ext. intros o. apply target_filters_resolvable.
  - unfold filter_accepted. cbn -[str_mem]. now rewrite andb_true_r.
Qed.

Lemma retained_edges rel_type os :
  remove_revoked_deprecated
    (filter (fun o =>
               forallb (check_filter o)
                 [ mkFilter "type" OpEq (FStr "relationship");
                   mkFilter "relationship_type" OpEq (FStr rel_type);
                   mkFilter "revoked" OpEq (FBool false) ]) os)
  = filter (retained_edge rel_type) os.
Proof.
  unfold remove_revoked_deprecated. rewrite filter_filter.
  apply filter_ext. intros o. apply edge_filters_retained.
Qed.

(** [get_related] with its three store-dependent steps spelled out. *)
Lemma get_related_unfold st source_type rel_type target_type reverse :
  get_related st source_type rel_type target_type reverse =
  if validating st && negb (str_mem rel_type relationship_types)
  then Raise InvalidFilter
  else
    id_to_related <-
      for_each (filter (retained_edge rel_type) (objects st)) []
               (add_related source_type target_type reverse) ;;
    if validating st
       && negb (str_mem (other_type source_type target_type reverse)
                        ("relationship" :: stix_types))
    then Raise InvalidFilter
    else Ok (build_output
               (build_id_to_target
                  (filter (resolvable (other_type source_type target_type reverse))
                          (objects st)))
               id_to_related).
Proof.
  unfold get_related. rewrite edge_query.
  destruct (validating st && negb (str_mem rel_type relationship_types));
    [reflexivity|].
  unfold bind at 1. rewrite retained_edges.
  assert (Ht : (if negb reverse
                then src_query st [ mkFilter "type" OpEq (FStr target_type);
                                    mkFilter "revoked" OpEq (FBool false) ]
                else src_query st [ mkFilter "type" OpEq (FStr source_type);
                                    mkFilter "revoked" OpEq (FBool false) ])
               = src_query st
                   [ mkFilter "type" OpEq
                       (FStr (other_type source_type target_type reverse));
                     mkFilter "revoked" OpEq (FBool false) ])
    by now destruct reverse.
  rewrite Ht, target_query.
  destruct (for_each _ _ _); [|reflexivity]. simpl.
  now destruct (validating st && _).
Qed.

Lemma get_related_run st source_type rel_type target_type reverse :
  store_accepts st rel_type (other_type source_type target_type reverse) = true ->
  exists m,
    get_related st source_type rel_type target_type reverse = Ok m /\
    dict_wf m /\
    forall k,
      dict_get k m =
      match edges_anchored st source_type rel_type target_type reverse k with
      | [] => None
      | _ => Some (entries_at st source_type rel_type target_type reverse k)
      end.
Proof.
  intros Hacc. rewrite get_related_unfold.
  assert (Hv : validating st && negb (str_mem rel_type relationship_types) = false
               /\ validating st
                  && negb (str_mem (other_type source_type target_type reverse)
                                   ("relationship" :: stix_types)) = false).
  { unfold store_accepts in Hacc. destruct (validating st); [|now split].
    cbn [negb orb] in Hacc. apply andb_true_iff in Hacc as [H1 H2].
    rewrite H1, H2. now split. }
  destruct Hv as [-> ->].
  destruct (@for_each_add_related source_type target_type reverse _
              (retained_edges_SRO rel_type (objects st)) [])
    as (d & Hrun & Hwf & Hget).
  unfold dict in *. rewrite Hrun. simpl bind.
  eexists. split; [reflexivity|]. split; [apply build_output_wf|].
  intros k. rewrite build_output_get by (apply Hwf, dict_wf_nil).
  rewrite Hget. simpl dict_get. unfold entries_at, edges_anchored.
  destruct (anchored source_type target_type reverse k
              (filter (retained_edge rel_type) (objects st))) as [|r rs] eqn:E;
    [reflexivity|].
  change (extend_opt None (map (mk_related reverse) (r :: rs)))
    with (Some (map (mk_related reverse) (r :: rs))).
  unfold option_map.
  rewrite resolve_related_flat_map, flat_map_map.
  f_equal. apply flat_map_ext. intros r0.
  unfold resolve_one, entry_of, target_of, mk_related. simpl.
  now rewrite build_id_to_target_get.
Qed.

Lemma get_related_rejected st source_type rel_type target_type reverse :
  store_accepts st rel_type (other_type source_type target_type reverse) = false ->
  get_related st source_type rel_type target_type reverse = Raise InvalidFilter.
Proof.
  unfold store_accepts. intros H. apply orb_false_iff in H as [Hv H].
  apply negb_false_iff in Hv. rewrite get_related_unfold, Hv. cbn [andb].
  destruct (str_mem rel_type relationship_types); [|reflexivity].
  cbn [andb] in H. rewrite H. cbn [negb andb].
  destruct (@for_each_add_related source_type target_type reverse _
              (retained_edges_SRO rel_type (objects st)) [])
    as (d & Hrun & _ & _).
  unfold dict in *. now rewrite Hrun.
Qed.

(** [get_related] returns exactly when the store accepts its two queries,
    and then its value at every key is the one described above. *)
Lemma get_related_Ok st source_type rel_type target_type reverse m :
  get_related st source_type rel_type target_type reverse = Ok m ->
  store_accepts st rel_type (other_type source_type target_type reverse) = true /\
  dict_wf m /\
  forall k,
    dict_get k m =
    match edges_anchored st source_type rel_type target_type reverse k with
    | [] => None
    | _ => Some (entries_at st source_type rel_type target_type reverse k)
    end.
Proof.
  intros H.
  destruct (store_accepts st rel_type
              (other_type source_type target_type reverse)) eqn:E.
  - destruct (get_related_run st source_type rel_type target_type reverse E)
      as (m' & Hm' & Hwf & Hget).
    rewrite H in Hm'. injection Hm' as <-. auto.
  - rewrite (get_related_rejected _ _ _ _ _ E) in H. discriminate.
Qed.

Lemma anchored_In source_type target_type reverse k os r :
  In r (anchored source_type target_type reverse k os) <->
  In (SRO r) os /\ edge_selected source_type target_type r = true
  /\ anchor_of reverse r = k.
Proof.
  unfold anchored. rewrite in_flat_map. split.
  - intros (o & Ho & Hr). destruct o as [e|r0]; [contradiction|].
    destruct (edge_selected source_type target_type r0) eqn:Es; simpl in Hr;
      [|contradiction].
    destruct (anchor_of reverse r0 =? k) eqn:Ea; [|contradiction].
    destruct Hr as [<-|[]]. apply String.eqb_eq in Ea. auto.
  - intros (Ho & Hs & Ha). exists (SRO r). split; [assumption|].
    rewrite Hs, Ha, String.eqb_refl. now left.
Qed.

Lemma edges_anchored_In st source_type rel_type target_type reverse k r :
  In r (edges_anchored st source_type rel_type target_type reverse k) <->
  In (SRO r) (objects st) /\ retained_edge rel_type (SRO r) = true
  /\ edge_selected source_type target_type r = true
  /\ anchor_of reverse r = k.
Proof.
  unfold edges_anchored. rewrite anchored_In, filter_In. tauto.
Qed.

Lemma target_of_Some st type id t :
  target_of st type id = Some t ->
  In t (objects st) /\ resolvable type t = true /\ obj_id t = id.
Proof.
  unfold target_of. intros H. apply last_with_id_Some in H as [Hin Hid].
  apply filter_In in Hin. tauto.
Qed.

Lemma target_of_exists st type id o :
  In o (objects st) -> resolvable type o = true -> obj_id o = id ->
  exists t, target_of st type id = Some t.
Proof.
  intros Hin Hres Hid. unfold target_of.
  destruct (last_with_id id (filter (resolvable type) (objects st))) as [t|] eqn:E.
  - now exists t.
  - apply last_with_id_None in E. exfalso.
    assert (H : In o (filter (fun t => obj_id t =? id)
                             (filter (resolvable type) (objects st)))).
    { apply filter_In. split; [apply filter_In; auto|].
      subst id. apply String.eqb_refl. }
    now rewrite E in H.
Qed.

Lemma entries_at_In st source_type rel_type target_type reverse k e :
  In e (entries_at st source_type rel_type target_type reverse k) <->
  In (relationship e)
     (edges_anchored st source_type rel_type target_type reverse k) /\
  exists t,
    target_of st (other_type source_type target_type reverse)
              (related_of reverse (relationship e)) = Some t /\
    object e = StixObjectFactory t.
Proof.
  unfold entries_at. rewrite in_flat_map. unfold entry_of. split.
  - intros (r & Hr & He).
    destruct (target_of _ _ (related_of reverse r)) as [t|] eqn:Et;
      [|contradiction].
    destruct He as [<-|[]]. simpl. split; [assumption|]. now exists t.
  - intros (Hr & t & Ht & Ho). exists (relationship e). split; [assumption|].
    rewrite Ht. left. destruct e as [oe re]. simpl in *. now subst oe.
Qed.

Lemma revoked_False_iff o : revoked_False o = true <-> obj_revoked o = Some false.
Proof.
  unfold revoked_False. destruct (obj_revoked o) as [[|]|]; split; congruence.
Qed.

Lemma not_deprecated_iff o :
  not_deprecated o = true <-> obj_x_mitre_deprecated o <> Some true.
Proof.
  unfold not_deprecated.
  destruct (obj_x_mitre_deprecated o) as [[|]|]; split; congruence.
Qed.

Lemma resolvable_iff type o :
  resolvable type o = true <-> obj_type o = type /\ obj_revoked o = Some false.
Proof.
  unfold resolvable. now rewrite andb_true_iff, String.eqb_eq, revoked_False_iff.
Qed.

Lemma retained_edge_iff rel_type r :
  retained_edge rel_type (SRO r) = true <->
  relationship_type r = rel_type /\ rel_revoked r = Some false
  /\ rel_x_mitre_deprecated r <> Some true.
Proof.
  unfold retained_edge.
  rewrite !andb_true_iff, String.eqb_eq, revoked_False_iff, not_deprecated_iff.
  simpl. tauto.
Qed.

(* ================================================================= *)
(** ** Revocation filter (C7) *)

Lemma filter_subsequence {A : Type} (p : A -> bool) (l : list A) :
  subsequence (filter p l) l.
Proof.
  induction l as [|x l IH]; simpl; [constructor|].
  destruct (p x); now constructor.
Qed.

(** C7. [remove_revoked_deprecated] returns exactly the elements, in their
    original order, for which neither [x_mitre_deprecated] nor [revoked] is
    present with value true (an absent flag counting as false).  The function
    is a pure list function: its argument is a value and nothing else is
    touched. *)
Theorem remove_revoked_deprecated_spec (stix_objects : list StixObject) :
  remove_revoked_deprecated stix_objects = filter kept stix_objects
  /\ subsequence (remove_revoked_deprecated stix_objects) stix_objects
  /\ forall x,
       In x (remove_revoked_deprecated stix_objects) <->
       In x stix_objects
       /\ obj_x_mitre_deprecated x <> Some true
       /\ obj_revoked x <> Some true.
Proof.
  assert (Hk : forall x,
             is_False (get_default (obj_x_mitre_deprecated x) false)
             && is_False (get_default (obj_revoked x) false) = kept x).
  { intros x. unfold kept, is_False, get_default, present_and_true.
    destruct (obj_x_mitre_deprecated x) as [[|]|];
      destruct (obj_revoked x) as [[|]|]; reflexivity. }
  split; [|split].
  - unfold remove_revoked_deprecated. apply filter_ext. exact Hk.
  - apply filter_subsequence.
  - intros x. unfold remove_revoked_deprecated. rewrite filter_In, Hk.
    unfold kept, present_and_true.
    destruct (obj_x_mitre_deprecated x) as [[|]|];
      destruct (obj_revoked x) as [[|]|]; simpl;
      intuition congruence.
Qed.

(* ================================================================= *)
(** ** Entries of a resolved mapping (C1) *)

(** C1, as amended.  Whenever the store answers the two queries,
    [get_related] returns a mapping, and every entry in it pairs a kept edge
    with an object that is in the store, has the related type, has
    [revoked = False] and carries the edge's related identifier.  An edge
    whose related identifier has no such object (revoked or absent) thus
    leaves no entry, and raises nothing.  The deprecation flag of the related
    object is not examined. *)
Theorem get_related_entries_resolved st source_type rel_type target_type reverse :
  store_accepts st rel_type (other_type source_type target_type reverse) = true ->
  exists m,
    get_related st source_type rel_type target_type reverse = Ok m /\
    forall k v e,
      dict_get k m = Some v -> In e v ->
      exists t,
        object e = StixObjectFactory t
        /\ In t (objects st)
        /\ obj_type t = other_type source_type target_type reverse
        /\ obj_revoked t = Some false
        /\ obj_id t = related_of reverse (relationship e)
        /\ In (SRO (relationship e)) (objects st)
        /\ retained_edge rel_type (SRO (relationship e)) = true
        /\ anchor_of reverse (relationship e) = k.
Proof.
  intros Hacc.
  destruct (get_related_run st source_type rel_type target_type reverse Hacc)
    as (m & Hm & _ & Hget).
  exists m. split; [assumption|].
  intros k v e Hk He. rewrite Hget in Hk.
  destruct (edges_anchored st source_type rel_type target_type reverse k)
    as [|r rs] eqn:E; [discriminate|].
  injection Hk as <-.
  apply entries_at_In in He as (Hr & t & Ht & Ho).
  apply edges_anchored_In in Hr as (Hin & Hret & _ & Hanchor).
  apply target_of_Some in Ht as (Htin & Hres & Hid).
  apply resolvable_iff in Hres as [Hty Hrev].
  exists t. repeat split; assumption.
Qed.

(** The statement at the scenario store: the group's tool. *)
Lemma get_related_entries_resolved_witness :
  exists m,
    get_related (Examples.scenario true) "intrusion-set" "uses" "tool" false = Ok m /\
    forall k v e,
      dict_get k m = Some v -> In e v ->
      exists t,
        object e = StixObjectFactory t
        /\ In t (objects (Examples.scenario true))
        /\ obj_type t = other_type "intrusion-set" "tool" false
        /\ obj_revoked t = Some false
        /\ obj_id t = related_of false (relationship e)
        /\ In (SRO (relationship e)) (objects (Examples.scenario true))
        /\ retained_edge "uses" (SRO (relationship e)) = true
        /\ anchor_of false (relationship e) = k.
Proof.
  apply (@get_related_entries_resolved (Examples.scenario true)
           "intrusion-set" "uses" "tool" false).
  reflexivity.
Defined.

(** C1 as stated fails: a deprecated, non-revoked tool is still listed. *)
Lemma deprecated_related_entity_listed :
  get_related Examples.deprecated_target "intrusion-set" "uses" "tool" false
  = Ok [ (Examples.G_id,
          [ Examples.entry Examples.W_deprecated Examples.G_uses_W ]) ]
  /\ obj_x_mitre_deprecated
       (view_data (object (Examples.entry Examples.W_deprecated Examples.G_uses_W)))
     = Some true.
Proof. split; reflexivity. Qed.

(* ================================================================= *)
(** ** Keys of a resolved mapping (C2) *)

Lemma flat_map_nil {A B : Type} (f : A -> list B) (l : list A) :
  flat_map f l = [] <-> forall x, In x l -> f x = [].
Proof.
  induction l as [|a l IH]; simpl.
  - split; [intros _ x []|reflexivity].
  - split.
    + intros H x [<-|Hx].
      * now apply app_eq_nil in H.
      * apply app_eq_nil in H as [_ H]. now apply IH.
    + intros H. rewrite (H a) by now left. simpl. apply IH. auto.
Qed.

Lemma entries_at_nil st source_type rel_type target_type reverse k :
  entries_at st source_type rel_type target_type reverse k = [] <->
  forall r,
    In r (edges_anchored st source_type rel_type target_type reverse k) ->
    target_of st (other_type source_type target_type reverse)
              (related_of reverse r) = None.
Proof.
  unfold entries_at. rewrite flat_map_nil.
  split; intros H r Hr; specialize (H r Hr); unfold entry_of in *;
    destruct (target_of _ _ (related_of reverse r)); congruence.
Qed.

(** C2, as amended.  The keys of the returned mapping are exactly the
    anchors of the kept edges.  The value of a key holds one entry for each
    of its edges whose related identifier resolves, in order; it is the
    empty list exactly when none of them resolves, and the key is then still
    present. *)
Theorem get_related_keys st source_type rel_type target_type reverse :
  store_accepts st rel_type (other_type source_type target_type reverse) = true ->
  exists m,
    get_related st source_type rel_type target_type reverse = Ok m /\
    forall k,
      (dict_get k m = None <->
       edges_anchored st source_type rel_type target_type reverse k = [])
      /\ forall v,
          dict_get k m = Some v ->
          v = entries_at st source_type rel_type target_type reverse k
          /\ (v = [] <->
              forall r,
                In r (edges_anchored st source_type rel_type target_type reverse k) ->
                target_of st (other_type source_type target_type reverse)
                          (related_of reverse r) = None).
Proof.
  intros Hacc.
  destruct (get_related_run st source_type rel_type target_type reverse Hacc)
    as (m & Hm & _ & Hget).
  exists m. split; [assumption|].
  intros k. rewrite Hget.
  destruct (edges_anchored st source_type rel_type target_type reverse k)
    as [|r rs] eqn:E.
  - split; [tauto|discriminate].
  - split; [split; discriminate|].
    intros v [= <-]. split; [reflexivity|].
    rewrite entries_at_nil, E. reflexivity.
Qed.

(** The statement at a store whose only edge points to a revoked tool. *)
Lemma get_related_keys_witness :
  exists m,
    get_related Examples.revoked_target "intrusion-set" "uses" "tool" false = Ok m /\
    forall k,
      (dict_get k m = None <->
       edges_anchored Examples.revoked_target "intrusion-set" "uses" "tool" false k = [])
      /\ forall v,
          dict_get k m = Some v ->
          v = entries_at Examples.revoked_target "intrusion-set" "uses" "tool" false k
          /\ (v = [] <->
              forall r,
                In r (edges_anchored Examples.revoked_target
                                     "intrusion-set" "uses" "tool" false k) ->
                target_of Examples.revoked_target
                          (other_type "intrusion-set" "tool" false)
                          (related_of false r) = None).
Proof.
  apply (@get_related_keys Examples.revoked_target
           "intrusion-set" "uses" "tool" false).
  reflexivity.
Defined.

(** C2 as stated fails: the group's only candidate is dropped and the group
    is still a key, with an empty list. *)
Lemma key_with_empty_list :
  exists m,
    get_related Examples.revoked_target "intrusion-set" "uses" "tool" false = Ok m
    /\ dict_get Examples.G_id m = Some [].
Proof. eexists. split; reflexivity. Qed.

(* ================================================================= *)
(** ** Tags outside the vocabulary (C9) *)

Lemma dict_all_None {V : Type} (m : dict V) :
  (forall k, dict_get k m = None) -> m = [].
Proof.
  destruct m as [|[k v] m]; [reflexivity|].
  intros H. specialize (H k). simpl in H. now rewrite String.eqb_refl in H.
Qed.

(** C9, as amended.  [get_related] has no vocabulary check of its own.  It
    raises exactly when the store rejects one of its two queries, which
    carry the relationship type and the related-side type tag only.  The
    anchor-side tag is never sent to the store: it is matched as a substring
    of edge identifiers, and a call whose anchor-side tag occurs in no edge
    identifier returns the empty mapping. *)
Theorem get_related_no_vocabulary_check st source_type rel_type target_type reverse :
  match get_related st source_type rel_type target_type reverse with
  | Ok m =>
      store_accepts st rel_type (other_type source_type target_type reverse) = true
      /\ ((forall r, In (SRO r) (objects st) ->
                     str_in (anchor_type source_type target_type reverse)
                            (anchor_of reverse r) = false) ->
          m = [])
  | Raise e =>
      e = InvalidFilter
      /\ store_accepts st rel_type (other_type source_type target_type reverse) = false
  end.
Proof.
  destruct (store_accepts st rel_type
              (other_type source_type target_type reverse)) eqn:E.
  - destruct (get_related_run st source_type rel_type target_type reverse E)
      as (m & -> & _ & Hget).
    split; [reflexivity|]. intros Hno. apply dict_all_None. intros k.
    rewrite Hget.
    destruct (edges_anchored st source_type rel_type target_type reverse k)
      as [|r rs] eqn:Ee; [reflexivity|].
    assert (Hr : In r (edges_anchored st source_type rel_type target_type reverse k))
      by (rewrite Ee; now left).
    apply edges_anchored_In in Hr as (Hin & _ & Hsel & _).
    specialize (Hno r Hin). unfold edge_selected in Hsel.
    apply andb_true_iff in Hsel as [Hs Ht].
    unfold anchor_type, anchor_of in Hno. destruct reverse; congruence.
  - rewrite (get_related_rejected _ _ _ _ _ E). now split.
Qed.

(** C9 as stated fails: with a source type outside the vocabulary the call
    returns the empty mapping, from a store that validates its queries as
    from one that does not; a proper prefix of a type tag even returns the
    group's entry. *)
Lemma unknown_source_type_returns :
  str_mem "bogus" stix_types = false
  /\ get_related (Examples.scenario true) "bogus" "uses" "tool" false = Ok []
  /\ get_related (Examples.scenario false) "bogus" "nonsense" "gadget" false = Ok []
  /\ str_mem "intrusion" stix_types = false
  /\ get_related (Examples.scenario true) "intrusion" "uses" "tool" false
     = Ok [ (Examples.G_id, [ Examples.entry Examples.W Examples.G_uses_W ]) ].
Proof. repeat split; reflexivity. Qed.

(* ================================================================= *)
(** ** Forward and reverse mappings (C5) *)

(** An edge of the store that [get_related] keeps and selects, from [x]
    to [y]. *)
Lemma related_in_edge st source_type rel_type target_type reverse m x y :
  get_related st source_type rel_type target_type reverse = Ok m ->
  (related_in m x y <->
   exists r,
     In (SRO r) (objects st)
     /\ retained_edge rel_type (SRO r) = true
     /\ edge_selected source_type target_type r = true
     /\ anchor_of reverse r = x
     /\ related_of reverse r = y
     /\ target_of st (other_type source_type target_type reverse) y <> None).
Proof.
  intros Hm. apply get_related_Ok in Hm as (_ & _ & Hget).
  unfold related_in. split.
  - intros (v & e & Hv & He & Hy). rewrite Hget in Hv.
    destruct (edges_anchored st source_type rel_type target_type reverse x)
      as [|r0 rs] eqn:E; [discriminate|].
    injection Hv as <-.
    apply entries_at_In in He as (Hr & t & Ht & Ho).
    apply edges_anchored_In in Hr as (Hin & Hret & Hsel & Hanchor).
    exists (relationship e).
    pose proof (target_of_Some _ _ _ Ht) as (_ & _ & Hid).
    rewrite Ho in Hy. simpl in Hy.
    assert (Hrel : related_of reverse (relationship e) = y) by congruence.
    repeat split; try assumption. rewrite <- Hrel, Ht. discriminate.
  - intros (r & Hin & Hret & Hsel & Hanchor & Hrel & Ht).
    destruct (target_of st (other_type source_type target_type reverse) y)
      as [t|] eqn:Et; [|congruence].
    exists (entries_at st source_type rel_type target_type reverse x),
           {| object := StixObjectFactory t; relationship := r |}.
    assert (Hr : In r (edges_anchored st source_type rel_type target_type reverse x))
      by (apply edges_anchored_In; auto).
    split; [|split].
    + rewrite Hget.
      destruct (edges_anchored st source_type rel_type target_type reverse x);
        [contradiction|reflexivity].
    + apply entries_at_In. simpl. split; [assumption|].
      exists t. rewrite Hrel. auto.
    + simpl. now apply target_of_Some in Et.
Qed.

(** C5, as amended.  For [X] a non-revoked store object of the source type
    and [Y] a non-revoked store object of the target type: [X] is a key with
    [Y] in its list in the forward mapping exactly when [Y] is a key with [X]
    in its list in the reverse mapping. *)
Theorem get_related_transpose st source_type rel_type target_type X Y :
  store_accepts st rel_type target_type = true ->
  store_accepts st rel_type source_type = true ->
  (exists x, In x (objects st) /\ resolvable source_type x = true /\ obj_id x = X) ->
  (exists y, In y (objects st) /\ resolvable target_type y = true /\ obj_id y = Y) ->
  exists forward backward,
    get_related st source_type rel_type target_type false = Ok forward
    /\ get_related st source_type rel_type target_type true = Ok backward
    /\ (related_in forward X Y <-> related_in backward Y X).
Proof.
  intros Hf Hb (x & Hx & Hxres & Hxid) (y & Hy & Hyres & Hyid).
  destruct (get_related_run st source_type rel_type target_type false Hf)
    as (forward & Hfwd & _ & _).
  destruct (get_related_run st source_type rel_type target_type true Hb)
    as (backward & Hbwd & _ & _).
  exists forward, backward. split; [assumption|]. split; [assumption|].
  rewrite (related_in_edge _ _ _ _ _ X Y Hfwd),
          (related_in_edge _ _ _ _ _ Y X Hbwd).
  destruct (@target_of_exists st target_type Y y Hy Hyres Hyid) as [ty Hty].
  destruct (@target_of_exists st source_type X x Hx Hxres Hxid) as [tx Htx].
  unfold other_type, anchor_of, related_of.
  split; intros (r & Hin & Hret & Hsel & Ha & Hr & _); exists r;
    repeat split; try assumption; congruence.
Qed.

(** The statement at the scenario store, for the group and its tool. *)
Lemma get_related_transpose_witness :
  exists forward backward,
    get_related (Examples.scenario true) "intrusion-set" "uses" "tool" false
      = Ok forward
    /\ get_related (Examples.scenario true) "intrusion-set" "uses" "tool" true
       = Ok backward
    /\ (related_in forward Examples.G_id Examples.W_id
        <-> related_in backward Examples.W_id Examples.G_id).
Proof.
  apply (@get_related_transpose (Examples.scenario true)
           "intrusion-set" "uses" "tool" Examples.G_id Examples.W_id).
  - reflexivity.
  - reflexivity.
  - exists Examples.G. split; [simpl; auto|split; reflexivity].
  - exists Examples.W. split; [simpl; auto|split; reflexivity].
Defined.

(** C5 as stated fails: the edge itself is current and starts from a
    revoked group.  The forward mapping lists the tool under the group; the
    reverse mapping has the tool as a key with an empty list. *)
Lemma transpose_fails_for_revoked_source :
  exists forward backward,
    get_related Examples.revoked_source "intrusion-set" "uses" "tool" false
      = Ok forward
    /\ get_related Examples.revoked_source "intrusion-set" "uses" "tool" true
       = Ok backward
    /\ related_in forward Examples.G_id Examples.W_id
    /\ ~ related_in backward Examples.W_id Examples.G_id.
Proof.
  eexists. eexists. split; [reflexivity|]. split; [reflexivity|]. split.
  - exists [ Examples.entry Examples.W Examples.G_uses_W ],
           (Examples.entry Examples.W Examples.G_uses_W).
    split; [reflexivity|]. split; [now left|reflexivity].
  - intros (v & e & Hv & He & _). vm_compute in Hv. injection Hv as <-.
    contradiction.
Qed.

(* ================================================================= *)
(** ** Lookups that take the first result (C8, C10) *)

Lemma list_index_0 {A : Type} (l : list A) :
  list_index l 0 = match l with
                   | [] => Raise IndexError
                   | x :: _ => Ok x
                   end.
Proof. now destruct l. Qed.

Lemma str_mem_cons s x l : str_mem s (x :: l) = (s =? x) || str_mem s l.
Proof. reflexivity. Qed.

Lemma typed_query st type (f : Filter) (p : StixObject -> bool) :
  str_mem type stix_types = true ->
  filter_accepted f = true ->
  (forall o, check_filter o f = p o) ->
  src_query st [ mkFilter "type" OpEq (FStr type); f ]
  = Ok (filter (fun o => of_type type o && p o) (objects st))
  /\ src_query st [ f; mkFilter "type" OpEq (FStr type) ]
     = Ok (filter (fun o => of_type type o && p o) (objects st)).
Proof.
  intros Hty Hf Hp.
  assert (Hacc : filter_accepted (mkFilter "type" OpEq (FStr type)) = true).
  { unfold filter_accepted. cbn -[str_mem stix_types].
    rewrite str_mem_cons, Hty. apply orb_true_r. }
  assert (Hc : forall o, check_filter o (mkFilter "type" OpEq (FStr type))
                         = of_type type o) by reflexivity.
  split; rewrite src_query_accepted by (right; simpl; now rewrite Hf, Hacc);
    f_equal; apply filter_ext; intros o; simpl forallb;
    rewrite Hc, Hp, andb_true_r; [reflexivity|apply andb_comm].
Qed.

Lemma check_name name o :
  check_filter o (mkFilter "name" OpEq (FStr name)) = has_name name o.
Proof.
  destruct o as [e|r]; unfold check_filter, get_property; simpl; [|reflexivity].
  now destruct (ent_name e).
Qed.

Lemma check_aliases alias o :
  check_filter o (mkFilter "aliases" OpContains (FStr alias)) = has_alias alias o.
Proof.
  destruct o as [e|r]; unfold check_filter, get_property; simpl; [|reflexivity].
  now destruct (ent_aliases e).
Qed.

Lemma check_x_mitre_aliases alias o :
  check_filter o (mkFilter "x_mitre_aliases" OpContains (FStr alias))
  = has_x_mitre_alias alias o.
Proof.
  destruct o as [e|r]; unfold check_filter, get_property; simpl; [|reflexivity].
  now destruct (ent_x_mitre_aliases e).
Qed.

Lemma check_attack_id attack_id o :
  check_filter o (mkFilter "external_references.external_id" OpEq (FStr attack_id))
  = has_attack_id attack_id o.
Proof.
  destruct o as [e|r]; unfold check_filter, get_property; simpl; [|reflexivity].
  destruct (ent_external_references e) as [refs|]; simpl; [|reflexivity].
  unfold str_mem. induction refs as [|x refs IH]; simpl; [reflexivity|].
  destruct (external_id x); simpl; now rewrite IH.
Qed.

(** C8.  The lookups by name, alias and ATT&CK id take the first result of
    their query.  For an object type of the vocabulary, [get_object_by_name]
    returns the materialised first object of that type with that name, the
    one there is when there is exactly one; with no such object it raises
    [IndexError].  The same holds, with the raw object returned, for the
    lookups by alias, and for the lookup by ATT&CK id. *)
Theorem first_result_lookups st object_type :
  str_mem object_type stix_types = true ->
  forall name alias attack_id,
    match filter (fun o => of_type object_type o && has_name name o) (objects st) with
    | [] => get_object_by_name st name object_type = Raise IndexError
    | x :: _ => get_object_by_name st name object_type = Ok (StixObjectFactory x)
    end
    /\ match filter (fun o => of_type "intrusion-set" o && has_alias alias o)
                    (objects st) with
       | [] => get_group_by_alias st alias = Raise IndexError
       | x :: _ => get_group_by_alias st alias = Ok x
       end
    /\ match filter (fun o => of_type "campaign" o && has_alias alias o)
                    (objects st) with
       | [] => get_campaign_by_alias st alias = Raise IndexError
       | x :: _ => get_campaign_by_alias st alias = Ok x
       end
    /\ match filter (fun o => of_type "malware" o && has_x_mitre_alias alias o)
                    (objects st)
             ++ filter (fun o => of_type "tool" o && has_x_mitre_alias alias o)
                       (objects st) with
       | [] => get_software_by_alias st alias = Raise IndexError
       | x :: _ => get_software_by_alias st alias = Ok x
       end
    /\ match filter (fun o => of_type object_type o && has_attack_id attack_id o)
                    (objects st) with
       | [] => get_object_by_attack_id st attack_id object_type = Raise IndexError
       | x :: _ =>
           get_object_by_attack_id st attack_id object_type = Ok (StixObjectFactory x)
       end.
Proof.
  intros Hty name alias attack_id.
  unfold get_object_by_name, get_group_by_alias, get_campaign_by_alias,
    get_software_by_alias, get_object_by_attack_id.
  rewrite Hty. simpl negb. cbv iota.
  rewrite (proj1 (@typed_query st object_type
                    (mkFilter "name" OpEq (FStr name)) _
                    Hty eq_refl (check_name name))).
  rewrite (proj2 (@typed_query st object_type
                    (mkFilter "external_references.external_id" OpEq (FStr attack_id)) _
                    Hty eq_refl (check_attack_id attack_id))).
  rewrite (proj1 (@typed_query st "intrusion-set"
                    (mkFilter "aliases" OpContains (FStr alias)) _
                    eq_refl eq_refl (check_aliases alias))).
  rewrite (proj1 (@typed_query st "campaign"
                    (mkFilter "aliases" OpContains (FStr alias)) _
                    eq_refl eq_refl (check_aliases alias))).
  rewrite (proj1 (@typed_query st "malware"
                    (mkFilter "x_mitre_aliases" OpContains (FStr alias)) _
                    eq_refl eq_refl (check_x_mitre_aliases alias))).
  rewrite (proj1 (@typed_query st "tool"
                    (mkFilter "x_mitre_aliases" OpContains (FStr alias)) _
                    eq_refl eq_refl (check_x_mitre_aliases alias))).
  simpl bind. rewrite !list_index_0.
  repeat split;
    match goal with |- match ?l with _ => _ end => now destruct l end.
Qed.

(** The statement at the scenario store: the group is found by its name,
    and nothing is found under a name, alias or ATT&CK id that no object
    carries; and at a store whose group is found under part of an alias. *)
Lemma first_result_lookups_witness :
  get_object_by_name (Examples.scenario true) "G" "intrusion-set"
  = Ok (StixObjectFactory Examples.G)
  /\ (get_object_by_name (Examples.scenario true) "nobody" "intrusion-set"
      = Raise IndexError
      /\ get_group_by_alias (Examples.scenario true) "nobody" = Raise IndexError
      /\ get_campaign_by_alias (Examples.scenario true) "nobody" = Raise IndexError
      /\ get_software_by_alias (Examples.scenario true) "nobody" = Raise IndexError
      /\ get_object_by_attack_id (Examples.scenario true) "G0000" "intrusion-set"
         = Raise IndexError)
  /\ get_group_by_alias Examples.aliased_group "APT" = Ok Examples.G_aliased.
Proof.
  exact (conj
           (proj1 (@first_result_lookups (Examples.scenario true) "intrusion-set"
                     eq_refl "G" "nobody" "G0000"))
           (conj
              (@first_result_lookups (Examples.scenario true) "intrusion-set"
                 eq_refl "nobody" "nobody" "G0000")
              (proj1 (proj2 (@first_result_lookups Examples.aliased_group
                               "intrusion-set" eq_refl "G" "APT" "G0000"))))).
Defined.

Lemma map_result_target_refs (p : StixObject -> bool) (os : list StixObject) :
  (forall e, p (SDO e) = false) ->
  map_result attr_target_ref (filter p os)
  = Ok (flat_map (fun o => match o with
                           | SRO r => if p (SRO r) then [target_ref r] else []
                           | SDO _ => []
                           end) os).
Proof.
  intros Hp. induction os as [|o os IH]; simpl; [reflexivity|].
  destruct o as [e|r].
  - now rewrite Hp.
  - destruct (p (SRO r)); [|assumption]. simpl. now rewrite IH.
Qed.

Lemma revoking_query_revokers st stix_id :
  revoking_query st stix_id = Ok (revokers st stix_id).
Proof.
  unfold revoking_query, src_relationships. cbn [andb negb app].
  rewrite src_query_accepted by (right; reflexivity).
  cbn [bind]. rewrite app_nil_r.
  rewrite map_result_target_refs.
  2:{ intros e. unfold check_filter, get_property. simpl.
      now destruct (ent_type e =? "relationship"). }
  cbn [bind].
  rewrite src_query_accepted by (right; reflexivity).
  f_equal. unfold revokers, revoked_by_refs.
  assert (Hrefs :
            flat_map
              (fun o => match o with
                        | SRO r =>
                            if forallb (check_filter (SRO r))
                                 [ mkFilter "type" OpEq (FStr "relationship");
                                   mkFilter "relationship_type" OpEq (FStr "revoked-by");
                                   mkFilter "source_ref" OpEq (FStr stix_id) ]
                            then [target_ref r] else []
                        | SDO _ => []
                        end) (objects st)
            = flat_map
                (fun o => match o with
                          | SRO r =>
                              if (relationship_type r =? "revoked-by")
                                 && (source_ref r =? stix_id)
                              then [target_ref r] else []
                          | SDO _ => []
                          end) (objects st)).
  { apply flat_map_ext. intros [e|r]; [reflexivity|].
    unfold check_filter, get_property. simpl. now rewrite andb_true_r. }
  rewrite Hrefs. apply filter_ext. intros o.
  unfold check_filter, get_property, revoked_False. simpl.
  rewrite andb_true_r.
  destruct (str_mem (obj_id o) _); simpl; [|reflexivity].
  now destruct (obj_revoked o) as [[|]|].
Qed.

(** C10.  The [revoked-by] query of [get_revoked_by] yields the
    non-revoked objects that revoke [stix_id].  When there is none the call
    raises [IndexError]; it returns neither [None] nor an empty result.
    Otherwise it returns the first of them. *)
Theorem get_revoked_by_first_or_IndexError st stix_id :
  revoking_query st stix_id = Ok (revokers st stix_id)
  /\ match revokers st stix_id with
     | [] => get_revoked_by st stix_id = Raise IndexError
     | first :: _ => get_revoked_by st stix_id = Ok (Some first)
     end.
Proof.
  split; [apply revoking_query_revokers|].
  unfold get_revoked_by. rewrite revoking_query_revokers. simpl bind.
  rewrite list_index_0. now destruct (revokers st stix_id).
Qed.

(* ================================================================= *)
(** ** Single-anchor accessors (C3) *)

(** Seventeen of the eighteen accessors index the full mapping. *)
Lemma single_anchor_accessors st stix_id :
  indexes (get_software_used_by_groups st) stix_id
       (get_software_used_by_group_with_id st stix_id)
  /\ indexes (get_groups_using_software st) stix_id
       (get_groups_using_software_with_id st stix_id)
  /\ indexes (get_software_used_by_campaigns st) stix_id
       (get_software_used_by_campaign_with_id st stix_id)
  /\ indexes (get_campaigns_using_software st) stix_id
       (get_campaigns_using_software_with_id st stix_id)
  /\ indexes (get_groups_attributing_to_campaigns st) stix_id
       (get_groups_attributing_to_campaign_with_id st stix_id)
  /\ indexes (get_campaigns_attributed_to_groups st) stix_id
       (get_campaigns_attributed_to_group_with_id st stix_id)
  /\ indexes (get_techniques_used_by_groups st) stix_id
       (get_techniques_used_by_group_with_id st stix_id)
  /\ indexes (get_groups_using_techniques st) stix_id
       (get_groups_using_technique_with_id st stix_id)
  /\ indexes (get_techniques_used_by_campaigns st) stix_id
       (get_techniques_used_by_campaign_with_id st stix_id)
  /\ indexes (get_campaigns_using_techniques st) stix_id
       (get_campaigns_using_technique_with_id st stix_id)
  /\ indexes (get_techniques_used_by_software st) stix_id
       (get_techniques_used_by_software_with_id st stix_id)
  /\ indexes (get_software_using_techniques st) stix_id
       (get_software_using_technique_with_id st stix_id)
  /\ indexes (get_techniques_mitigated_by_mitigations st) stix_id
       (get_techniques_mitigated_by_mitigation_with_id st stix_id)
  /\ indexes (get_parent_techniques_of_subtechniques st) stix_id
       (get_parent_technique_of_subtechnique_with_id st stix_id)
  /\ indexes (get_subtechniques_of_techniques st) stix_id
       (get_subtechniques_of_technique_with_id st stix_id)
  /\ indexes (get_techniques_detected_by_datacomponents st) stix_id
       (get_techniques_detected_by_datacomponent_with_id st stix_id)
  /\ indexes (get_datacomponents_detecting_techniques st) stix_id
       (get_datacomponents_detecting_technique_with_id st stix_id).
Proof.
  unfold indexes, index_or_empty,
    get_software_used_by_group_with_id, get_groups_using_software_with_id, get_software_used_by_campaign_with_id, get_campaigns_using_software_with_id, get_groups_attributing_to_campaign_with_id, get_campaigns_attributed_to_group_with_id, get_techniques_used_by_group_with_id, get_groups_using_technique_with_id, get_techniques_used_by_campaign_with_id, get_campaigns_using_technique_with_id, get_techniques_used_by_software_with_id, get_software_using_technique_with_id, get_techniques_mitigated_by_mitigation_with_id, get_parent_technique_of_subtechnique_with_id, get_subtechniques_of_technique_with_id, get_techniques_detected_by_datacomponent_with_id, get_datacomponents_detecting_technique_with_id.
  repeat split;
    match goal with
    | |- match ?full with _ => _ end => now destruct full
    end.
Qed.

(** C3 at the failing input.  The full mapping lists the mitigation under
    the technique; the accessor of the same family returns [None], for this
    and for every other identifier and store. *)
Theorem mitigations_accessor_returns_None :
  get_mitigations_mitigating_techniques Examples.mitigated_technique
  = Ok [ (Examples.T_id, [ Examples.entry Examples.A Examples.A_mitigates_T ]) ]
  /\ get_mitigations_mitigating_technique_with_id
       Examples.mitigated_technique Examples.T_id
     = Ok None
  /\ forall st stix_id,
       get_mitigations_mitigating_technique_with_id st stix_id = Ok None.
Proof. repeat split; reflexivity. Qed.

(* ================================================================= *)
(** ** Combining mappings (C4) *)

Lemma dict_union_get {V : Type} (a b : dict V) k :
  dict_wf b ->
  dict_get k (dict_union a b) =
  match dict_get k b with
  | Some v => Some v
  | None => dict_get k a
  end.
Proof.
  intros Hb. unfold dict_union.
  rewrite (@fold_update_get _ _ (fun v _ => v)); [|reflexivity|assumption].
  reflexivity.
Qed.

Lemma merge_get (map_a map_b : mapping) k :
  dict_wf map_b ->
  dict_get k (merge map_a map_b) =
  match dict_get k map_b with
  | Some vb => Some (get_default (dict_get k map_a) [] ++ vb)
  | None => dict_get k map_a
  end.
Proof.
  intros Hb. unfold merge.
  rewrite (@fold_update_get _ _
             (fun vb cur => get_default cur [] ++ vb)); [reflexivity| |assumption].
  intros acc kv. now destruct (dict_get (fst kv) acc).
Qed.

Lemma merge_wf (map_a map_b : mapping) :
  dict_wf map_a -> dict_wf (merge map_a map_b).
Proof.
  intros Ha. unfold merge.
  apply (@fold_update_wf _ _ (fun vb cur => get_default cur [] ++ vb));
    [|assumption].
  intros acc kv. now destruct (dict_get (fst kv) acc).
Qed.

Lemma collect_bridged_flat_map (via : mapping) (bridging : list Entry) :
  collect_bridged via bridging =
  flat_map (fun campaign =>
              get_default (dict_get (obj_id (view_data (object campaign))) via) [])
           bridging.
Proof.
  unfold collect_bridged.
  enough (H : forall acc,
             fold_left
               (fun collected campaign =>
                  match dict_get (obj_id (view_data (object campaign))) via with
                  | Some l => collected ++ l
                  | None => collected
                  end) bridging acc
             = acc ++ flat_map
                        (fun campaign =>
                           get_default
                             (dict_get (obj_id (view_data (object campaign))) via) [])
                        bridging)
    by apply H.
  induction bridging as [|c cs IH]; simpl; intros acc.
  - now rewrite app_nil_r.
  - rewrite IH.
    destruct (dict_get (obj_id (view_data (object c))) via); simpl;
      [now rewrite <- app_assoc|reflexivity].
Qed.

Lemma add_bridged_get (direct bridge via : mapping) k :
  dict_wf bridge ->
  dict_get k (add_bridged direct bridge via) =
  match dict_get k bridge with
  | Some bridging =>
      Some (get_default (dict_get k direct) [] ++ collect_bridged via bridging)
  | None => dict_get k direct
  end.
Proof.
  intros Hb. unfold add_bridged.
  rewrite (@fold_update_get _ _
             (fun bridging cur => get_default cur [] ++ collect_bridged via bridging));
    [reflexivity| |assumption].
  intros acc kv. now destruct (dict_get (fst kv) acc).
Qed.

(** What [get_software_using_techniques] returns for a technique that is a
    key of both one-hop mappings: the malware list alone. *)
Lemma software_using_techniques_shared_key st tools malware t v_tools v_malware :
  get_related st "tool" "uses" "attack-pattern" true = Ok tools ->
  get_related st "malware" "uses" "attack-pattern" true = Ok malware ->
  dict_get t tools = Some v_tools ->
  dict_get t malware = Some v_malware ->
  exists m,
    get_software_using_techniques st = Ok m /\ dict_get t m = Some v_malware.
Proof.
  intros Ht Hm Hvt Hvm. unfold get_software_using_techniques.
  rewrite Ht, Hm. simpl. eexists. split; [reflexivity|].
  apply get_related_Ok in Hm as (_ & Hwf & _).
  now rewrite dict_union_get, Hvm.
Qed.

(** C4 at the failing input.  A technique is used by one tool and by one
    malware; both one-hop mappings have it as a key, and the combined
    mapping holds the malware entry only, where the sibling
    [get_campaigns_using_software] (which calls [merge]) would hold both. *)
Theorem software_using_techniques_loses_tools :
  get_related Examples.shared_technique "tool" "uses" "attack-pattern" true
  = Ok [ (Examples.T_id, [ Examples.entry Examples.W Examples.W_uses_T ]) ]
  /\ get_related Examples.shared_technique "malware" "uses" "attack-pattern" true
     = Ok [ (Examples.T_id, [ Examples.entry Examples.M Examples.M_uses_T ]) ]
  /\ get_software_using_techniques Examples.shared_technique
     = Ok [ (Examples.T_id, [ Examples.entry Examples.M Examples.M_uses_T ]) ]
  /\ merge [ (Examples.T_id, [ Examples.entry Examples.W Examples.W_uses_T ]) ]
           [ (Examples.T_id, [ Examples.entry Examples.M Examples.M_uses_T ]) ]
     = [ (Examples.T_id, [ Examples.entry Examples.W Examples.W_uses_T;
                           Examples.entry Examples.M Examples.M_uses_T ]) ].
Proof. repeat split; reflexivity. Qed.

(* ================================================================= *)
(** ** Independence of the load order *)

Lemma filter_as_flat_map {A : Type} (p : A -> bool) (l : list A) :
  filter p l = flat_map (fun x => if p x then [x] else []) l.
Proof.
  induction l as [|x l IH]; simpl; [reflexivity|].
  rewrite IH. now destruct (p x).
Qed.

Lemma Permutation_filter {A : Type} (p : A -> bool) (l l' : list A) :
  Permutation l l' -> Permutation (filter p l) (filter p l').
Proof.
  intros H. rewrite !filter_as_flat_map. now apply Permutation_flat_map.
Qed.

Lemma Permutation_short {A : Type} (l s : list A) :
  Permutation l s -> length s <= 1 -> l = s.
Proof.
  intros H Hlen. destruct s as [|x [|y s]].
  - apply Permutation_sym in H. now apply Permutation_nil in H.
  - apply Permutation_sym in H. now apply Permutation_length_1_inv in H.
  - simpl in Hlen. lia.
Qed.

Lemma edges_anchored_reordered st os source_type rel_type target_type reverse k :
  Permutation (objects st) os ->
  length (edges_anchored (reordered st os)
            source_type rel_type target_type reverse k) <= 1 ->
  edges_anchored st source_type rel_type target_type reverse k
  = edges_anchored (reordered st os) source_type rel_type target_type reverse k.
Proof.
  intros Hperm Hlen. apply Permutation_short; [|assumption].
  unfold edges_anchored, anchored. simpl objects.
  apply Permutation_flat_map. now apply Permutation_filter.
Qed.

Lemma target_of_reordered st os type id :
  Permutation (objects st) os ->
  length (filter (fun o => obj_id o =? id) (filter (resolvable type) os)) <= 1 ->
  target_of st type id = target_of (reordered st os) type id.
Proof.
  intros Hperm Hlen. unfold target_of. simpl objects.
  rewrite (last_with_id_filter id (filter _ (objects st))),
          (last_with_id_filter id (filter _ os)).
  f_equal. apply Permutation_short; [|assumption].
  now do 2 apply Permutation_filter.
Qed.

(** A key with at most one edge, whose related identifier is carried by at
    most one resolvable object, has the same value whatever the load order. *)
Lemma lookup_reordered st os source_type rel_type target_type reverse m k :
  Permutation (objects st) os ->
  get_related st source_type rel_type target_type reverse = Ok m ->
  length (edges_anchored (reordered st os)
            source_type rel_type target_type reverse k) <= 1 ->
  (forall r,
     In r (edges_anchored (reordered st os)
             source_type rel_type target_type reverse k) ->
     length (filter (fun o => obj_id o =? related_of reverse r)
               (filter (resolvable (other_type source_type target_type reverse)) os))
     <= 1) ->
  dict_get k m =
  match edges_anchored (reordered st os)
          source_type rel_type target_type reverse k with
  | [] => None
  | _ => Some (entries_at (reordered st os)
                 source_type rel_type target_type reverse k)
  end.
Proof.
  intros Hperm Hm Hlen Hres.
  apply get_related_Ok in Hm as (_ & _ & Hget). rewrite Hget.
  unfold entries_at.
  rewrite (edges_anchored_reordered _ _ _ _ _ _ Hperm Hlen).
  destruct (edges_anchored (reordered st os)
              source_type rel_type target_type reverse k) as [|r [|r' rs]];
    [reflexivity| |simpl in Hlen; lia].
  simpl flat_map. unfold entry_of.
  rewrite (target_of_reordered _ _ _ Hperm (Hres r (or_introl eq_refl))).
  reflexivity.
Qed.

(* ================================================================= *)
(** ** The two-hop scenario (C6) *)

(** Rewriting with the boolean facts of the context, and evaluating. *)
Ltac rewrite_bools :=
  repeat match goal with
         | H : ?b = true |- context [?b] => rewrite H
         | H : ?b = false |- context [?b] => rewrite H
         end.

Ltac crunch :=
  repeat (progress (cbn -[str_in];
                    rewrite ?String.eqb_refl, ?andb_true_r, ?andb_false_r;
                    rewrite_bools)).

Ltac unfold_spec :=
  unfold entries_at, edges_anchored, anchored, edge_selected, entry_of,
    target_of, last_with_id, resolvable, reordered.

(** Evaluate the value of one key of a one-hop mapping on the listed store. *)
Ltac eval_lookup Hperm E :=
  rewrite (@lookup_reordered _ _ _ _ _ _ _ _ Hperm E);
  [ unfold_spec; crunch; try reflexivity
  | unfold_spec; crunch; simpl; lia
  | let r := fresh "r" in
    let Hr := fresh "Hr" in
    intros r; unfold_spec; crunch; intros Hr;
    repeat (destruct Hr as [<-|Hr]); try contradiction; crunch; simpl; lia ].

Lemma neq_eqb (a b : string) : a <> b -> (a =? b) = false /\ (b =? a) = false.
Proof.
  intros H. split; apply String.eqb_neq; congruence.
Qed.

(** C6, as amended.  In a store that holds one group using one tool, one
    campaign attributed to the group and using one malware, and nothing
    else, in any load order, where no entity and no edge is revoked or
    deprecated, [get_software_used_by_groups] lists under the group exactly
    the tool's entry followed by the malware's entry. *)
Theorem software_of_group_scenario st g w c m g_uses_w c_attributed_to_g c_uses_m :
  group_campaign_scenario st g w c m g_uses_w c_attributed_to_g c_uses_m ->
  exists software_used_by_group,
    get_software_used_by_groups st = Ok software_used_by_group
    /\ dict_get (ent_id g) software_used_by_group
       = Some [ {| object := StixObjectFactory (SDO w); relationship := g_uses_w |};
                {| object := StixObjectFactory (SDO m); relationship := c_uses_m |} ].
Proof.
  intros [Hperm [Hgt Hgi] [Hwt Hwi] [Hct Hci] [Hmt Hmi] Hdist Hent
            (Hr1 & Hs1 & Ht1) (Hr2 & Hs2 & Ht2) (Hr3 & Hs3 & Ht3) Hedges].
  assert (Hrev : forall e, In e [g; w; c; m] -> ent_revoked e = Some false)
    by (intros e He; apply (Hent e He)).
  pose proof (Hrev g ltac:(simpl; auto)) as Hgr.
  pose proof (Hrev w ltac:(simpl; auto)) as Hwr.
  pose proof (Hrev c ltac:(simpl; auto)) as Hcr.
  pose proof (Hrev m ltac:(simpl; auto)) as Hmr.
  assert (Hret : forall r, In r [g_uses_w; c_attributed_to_g; c_uses_m] ->
                           revoked_False (SRO r) = true
                           /\ not_deprecated (SRO r) = true).
  { intros r Hr. destruct (Hedges r Hr) as [H1 H2].
    split; [now apply revoked_False_iff|now apply not_deprecated_iff]. }
  destruct (Hret g_uses_w ltac:(simpl; auto)) as [Hv1 Hd1].
  destruct (Hret c_attributed_to_g ltac:(simpl; auto)) as [Hv2 Hd2].
  destruct (Hret c_uses_m ltac:(simpl; auto)) as [Hv3 Hd3].
  clear Hent Hrev Hedges Hret.
  inversion Hdist as [|? ? Hn1 Hd']; subst.
  inversion Hd' as [|? ? Hn2 Hd'']; subst.
  inversion Hd'' as [|? ? Hn3 _]; subst. clear Hdist Hd' Hd''.
  simpl in Hn1, Hn2, Hn3.
  destruct (@neq_eqb (ent_id c) (ent_id g)) as [Hcg Hgc]; [intuition congruence|].
  destruct (@neq_eqb (ent_id w) (ent_id m)) as [Hwm Hmw]; [intuition congruence|].
  clear Hn1 Hn2 Hn3.
  destruct (@get_related_run st "intrusion-set" "uses" "tool" false)
    as (tools_g & Etg & Wtg & _); [apply orb_true_iff; now right|].
  destruct (@get_related_run st "intrusion-set" "uses" "malware" false)
    as (mal_g & Emg & Wmg & _); [apply orb_true_iff; now right|].
  destruct (@get_related_run st "campaign" "uses" "tool" false)
    as (tools_c & Etc & Wtc & _); [apply orb_true_iff; now right|].
  destruct (@get_related_run st "campaign" "uses" "malware" false)
    as (mal_c & Emc & Wmc & _); [apply orb_true_iff; now right|].
  destruct (@get_related_run st "campaign" "attributed-to" "intrusion-set" true)
    as (camps & Ec & Wc & _); [apply orb_true_iff; now right|].
  unfold get_software_used_by_groups. rewrite Etg, Emg, Etc, Emc, Ec.
  cbn [bind]. eexists. split; [reflexivity|].
  rewrite add_bridged_get by assumption.
  rewrite merge_get by assumption.
  destruct g as [gi gt gn ga gx ge gd gr], w as [wi wt wn wa wx we wd wr],
           c as [ci ct cn ca cx ce cd cr], m as [mi mt mn ma mx me md mr],
           g_uses_w as [i1 t1 s1 o1 d1 v1],
           c_attributed_to_g as [i2 t2 s2 o2 d2 v2],
           c_uses_m as [i3 t3 s3 o3 d3 v3].
  cbn -[str_in] in *. subst.
  destruct (str_in "malware" wi) eqn:U1, (str_in "tool" mi) eqn:U2.
  all: eval_lookup Hperm Ec; eval_lookup Hperm Emg; eval_lookup Hperm Etg.
  all: rewrite merge_get by assumption.
  all: eval_lookup Hperm Emc; eval_lookup Hperm Etc; reflexivity.
Qed.

(** The statement at the scenario store loaded with the malware edge first. *)
Lemma software_of_group_scenario_witness :
  exists software_used_by_group,
    get_software_used_by_groups Examples.scenario_shuffled
    = Ok software_used_by_group
    /\ dict_get Examples.G_id software_used_by_group
       = Some [ Examples.entry Examples.W Examples.G_uses_W;
                Examples.entry Examples.M Examples.C_uses_M ].
Proof.
  apply (@software_of_group_scenario Examples.scenario_shuffled
           Examples.G_entity Examples.W_entity Examples.C_entity Examples.M_entity
           Examples.G_uses_W Examples.C_attributed_to_G Examples.C_uses_M).
  constructor.
  - apply NoDup_Permutation.
    + repeat (constructor; [simpl; intuition discriminate|]). constructor.
    + repeat (constructor; [simpl; intuition discriminate|]). constructor.
    + intros x. simpl. tauto.
  - split; reflexivity.
  - split; reflexivity.
  - split; reflexivity.
  - split; reflexivity.
  - repeat (constructor; [simpl; intuition discriminate|]). constructor.
  - intros e He. simpl in He.
    repeat (destruct He as [<-|He]; [split; [reflexivity|discriminate]|]).
    contradiction.
  - repeat split; reflexivity.
  - repeat split; reflexivity.
  - repeat split; reflexivity.
  - intros r Hr. simpl in Hr.
    repeat (destruct Hr as [<-|Hr]; [split; [reflexivity|discriminate]|]).
    contradiction.
Defined.

(** C6 as stated fails: every edge is non-revoked, and the group's edge to
    the tool is deprecated.  The edge is dropped with the revoked ones, and
    the group's list holds the malware's entry alone. *)
Lemma deprecated_edge_drops_tool :
  rel_revoked Examples.G_uses_W_deprecated = Some false
  /\ get_software_used_by_groups Examples.scenario_deprecated_edge
     = Ok [ (Examples.G_id, [ Examples.entry Examples.M Examples.C_uses_M ]) ].
Proof. split; reflexivity. Qed.

(* ================================================================= *)
(** ** Values of the composite mappings *)

Lemma dict_mem_set {V : Type} k k' (v : V) d :
  dict_mem k (dict_set k' v d) = (k' =? k) || dict_mem k d.
Proof.
  unfold dict_mem. rewrite dict_get_set. now destruct (k' =? k).
Qed.

Lemma merge_value (map_a map_b : mapping) k :
  dict_wf map_b ->
  index_or_empty (merge map_a map_b) k
  = index_or_empty map_a k ++ index_or_empty map_b k.
Proof.
  intros Hb. unfold index_or_empty. rewrite merge_get by assumption.
  destruct (dict_get k map_b); [|now rewrite app_nil_r].
  now destruct (dict_get k map_a).
Qed.

Lemma merge_mem (map_a map_b : mapping) k :
  dict_wf map_b ->
  dict_mem k (merge map_a map_b) = dict_mem k map_a || dict_mem k map_b.
Proof.
  intros Hb. unfold dict_mem. rewrite merge_get by assumption.
  destruct (dict_get k map_b), (dict_get k map_a); reflexivity.
Qed.

(** X1.  [merge] appends: under every key the merged mapping holds the
    entries of [map_a] followed by those of [map_b], none dropped and none
    deduplicated, and its keys are the keys of either. *)
Theorem merge_appends (map_a map_b : mapping) :
  dict_wf map_b ->
  forall k,
    dict_mem k (merge map_a map_b) = dict_mem k map_a || dict_mem k map_b
    /\ index_or_empty (merge map_a map_b) k
       = index_or_empty map_a k ++ index_or_empty map_b k
    /\ length (index_or_empty (merge map_a map_b) k)
       = length (index_or_empty map_a k) + length (index_or_empty map_b k).
Proof.
  intros Hb k. split; [now apply merge_mem|].
  rewrite merge_value by assumption. split; [reflexivity|apply length_app].
Qed.

(** X2.  [merge] is associative: merging [map_a] with the merge of [map_b]
    and [map_c] gives, under every key, the same list as merging the merge of
    [map_a] and [map_b] with [map_c]. *)
Theorem merge_assoc (map_a map_b map_c : mapping) :
  dict_wf map_b -> dict_wf map_c ->
  forall k,
    dict_get k (merge map_a (merge map_b map_c))
    = dict_get k (merge (merge map_a map_b) map_c).
Proof.
  intros Hb Hc k.
  rewrite (@merge_get map_a (merge map_b map_c)) by now apply merge_wf.
  rewrite (@merge_get (merge map_a map_b) map_c) by assumption.
  rewrite (@merge_get map_b map_c) by assumption.
  rewrite (@merge_get map_a map_b) by assumption.
  destruct (dict_get k map_c) as [vc|], (dict_get k map_b) as [vb|],
           (dict_get k map_a) as [va|]; simpl;
    rewrite ?app_assoc; reflexivity.
Qed.

(** The two statements at the mappings of the scenario: the group's direct
    tool, its campaign's malware, and the campaign's attribution. *)
Lemma merge_appends_witness :
  dict_mem Examples.G_id
    (merge [ (Examples.G_id, [ Examples.entry Examples.W Examples.G_uses_W ]) ]
           [ (Examples.G_id, [ Examples.entry Examples.M Examples.C_uses_M ]) ])
  = dict_mem Examples.G_id
      [ (Examples.G_id, [ Examples.entry Examples.W Examples.G_uses_W ]) ]
    || dict_mem Examples.G_id
         [ (Examples.G_id, [ Examples.entry Examples.M Examples.C_uses_M ]) ]
  /\ index_or_empty
       (merge [ (Examples.G_id, [ Examples.entry Examples.W Examples.G_uses_W ]) ]
              [ (Examples.G_id, [ Examples.entry Examples.M Examples.C_uses_M ]) ])
       Examples.G_id
     = index_or_empty
         [ (Examples.G_id, [ Examples.entry Examples.W Examples.G_uses_W ]) ]
         Examples.G_id
       ++ index_or_empty
            [ (Examples.G_id, [ Examples.entry Examples.M Examples.C_uses_M ]) ]
            Examples.G_id
  /\ length
       (index_or_empty
          (merge [ (Examples.G_id, [ Examples.entry Examples.W Examples.G_uses_W ]) ]
                 [ (Examples.G_id, [ Examples.entry Examples.M Examples.C_uses_M ]) ])
          Examples.G_id)
     = length
         (index_or_empty
            [ (Examples.G_id, [ Examples.entry Examples.W Examples.G_uses_W ]) ]
            Examples.G_id)
       + length
           (index_or_empty
              [ (Examples.G_id, [ Examples.entry Examples.M Examples.C_uses_M ]) ]
              Examples.G_id).
Proof.
  apply (@merge_appends
           [ (Examples.G_id, [ Examples.entry Examples.W Examples.G_uses_W ]) ]
           [ (Examples.G_id, [ Examples.entry Examples.M Examples.C_uses_M ]) ]).
  repeat constructor. simpl. tauto.
Defined.

Lemma merge_assoc_witness :
  dict_get Examples.G_id
    (merge [ (Examples.G_id, [ Examples.entry Examples.W Examples.G_uses_W ]) ]
       (merge [ (Examples.G_id, [ Examples.entry Examples.M Examples.C_uses_M ]) ]
              [ (Examples.C_id, [ Examples.entry Examples.G Examples.C_attributed_to_G ]) ]))
  = dict_get Examples.G_id
      (merge
         (merge [ (Examples.G_id, [ Examples.entry Examples.W Examples.G_uses_W ]) ]
                [ (Examples.G_id, [ Examples.entry Examples.M Examples.C_uses_M ]) ])
         [ (Examples.C_id, [ Examples.entry Examples.G Examples.C_attributed_to_G ]) ]).
Proof.
  apply (@merge_assoc
           [ (Examples.G_id, [ Examples.entry Examples.W Examples.G_uses_W ]) ]
           [ (Examples.G_id, [ Examples.entry Examples.M Examples.C_uses_M ]) ]
           [ (Examples.C_id, [ Examples.entry Examples.G Examples.C_attributed_to_G ]) ]);
    repeat constructor; simpl; tauto.
Defined.

Lemma add_bridged_value (direct bridge via : mapping) k :
  dict_wf bridge ->
  index_or_empty (add_bridged direct bridge via) k
  = bridged_value direct bridge via k.
Proof.
  intros Hb. unfold bridged_value, index_or_empty at 1 2.
  rewrite add_bridged_get by assumption. unfold index_or_empty at 2.
  destruct (dict_get k bridge) as [bridging|]; simpl.
  - rewrite collect_bridged_flat_map. unfold index_or_empty.
    now destruct (dict_get k direct).
  - now rewrite app_nil_r.
Qed.

Lemma add_bridged_mem (direct bridge via : mapping) k :
  dict_wf bridge ->
  dict_mem k (add_bridged direct bridge via) = dict_mem k direct || dict_mem k bridge.
Proof.
  intros Hb. unfold dict_mem. rewrite add_bridged_get by assumption.
  destruct (dict_get k bridge), (dict_get k direct); reflexivity.
Qed.

(** A call with tags of the vocabulary returns, whatever the store. *)
Lemma get_related_vocabulary st source_type rel_type target_type reverse :
  str_mem rel_type relationship_types = true ->
  str_mem (other_type source_type target_type reverse)
          ("relationship" :: stix_types) = true ->
  exists m,
    get_related st source_type rel_type target_type reverse = Ok m /\ dict_wf m.
Proof.
  intros Hr Ht.
  destruct (@get_related_run st source_type rel_type target_type reverse)
    as (m & Hm & Hwf & _).
  - unfold store_accepts. rewrite Hr, Ht. apply orb_true_r.
  - now exists m.
Qed.

Ltac one_hop st S R T rev m E W :=
  destruct (@get_related_vocabulary st S R T rev eq_refl eq_refl) as (m & E & W).

Lemma bridged_merged_value (a b bridge c d : mapping) k :
  dict_wf b -> dict_wf d ->
  bridged_value (merge a b) bridge (merge c d) k
  = (index_or_empty a k ++ index_or_empty b k)
    ++ flat_map (fun bridging =>
                   index_or_empty c (entry_id bridging)
                   ++ index_or_empty d (entry_id bridging))
                (index_or_empty bridge k).
Proof.
  intros Hb Hd. unfold bridged_value. rewrite merge_value by assumption.
  f_equal. apply flat_map_ext. intros e. now apply merge_value.
Qed.

(** X3.  [get_software_used_by_groups] always returns.  Its keys are the
    groups of the two direct mappings and of the attributed-campaign mapping;
    under a group it lists the group's tools, then its malware, then for each
    campaign attributed to the group, in order, that campaign's tools and
    then its malware.  [get_software_used_by_group_with_id] returns that
    list. *)
Theorem get_software_used_by_groups_value st :
  exists tools_by_group malware_by_group tools_by_campaign malware_by_campaign
         campaigns software_used_by_group,
    get_related st "intrusion-set" "uses" "tool" false = Ok tools_by_group
    /\ get_related st "intrusion-set" "uses" "malware" false = Ok malware_by_group
    /\ get_related st "campaign" "uses" "tool" false = Ok tools_by_campaign
    /\ get_related st "campaign" "uses" "malware" false = Ok malware_by_campaign
    /\ get_related st "campaign" "attributed-to" "intrusion-set" true = Ok campaigns
    /\ get_software_used_by_groups st = Ok software_used_by_group
    /\ forall group_id,
         dict_mem group_id software_used_by_group
         = dict_mem group_id tools_by_group || dict_mem group_id malware_by_group
           || dict_mem group_id campaigns
         /\ get_software_used_by_group_with_id st group_id
            = Ok ((index_or_empty tools_by_group group_id
                   ++ index_or_empty malware_by_group group_id)
                  ++ flat_map
                       (fun campaign =>
                          index_or_empty tools_by_campaign (entry_id campaign)
                          ++ index_or_empty malware_by_campaign (entry_id campaign))
                       (index_or_empty campaigns group_id)).
Proof.
  one_hop st "intrusion-set" "uses" "tool" false tg Etg Wtg.
  one_hop st "intrusion-set" "uses" "malware" false mg Emg Wmg.
  one_hop st "campaign" "uses" "tool" false tc Etc Wtc.
  one_hop st "campaign" "uses" "malware" false mc Emc Wmc.
  one_hop st "campaign" "attributed-to" "intrusion-set" true cs Ecs Wcs.
  exists tg, mg, tc, mc, cs. eexists.
  repeat (split; [eassumption|]).
  unfold get_software_used_by_group_with_id, get_software_used_by_groups.
  rewrite Etg, Emg, Etc, Emc, Ecs. cbn [bind].
  split; [reflexivity|]. intros k. split.
  - now rewrite add_bridged_mem, merge_mem.
  - now rewrite add_bridged_value, bridged_merged_value.
Qed.

(** X4.  [get_groups_using_software] always returns.  Under a software it
    lists the groups using it as a tool, then as a malware, then for each
    campaign using it (as a tool first, then as a malware) the entries of
    the groups that campaign is attributed to, which carry the
    [attributed-to] edge. *)
Theorem get_groups_using_software_value st :
  exists groups_using_tool groups_using_malware campaigns_using_tool
         campaigns_using_malware groups groups_using_software,
    get_related st "intrusion-set" "uses" "tool" true = Ok groups_using_tool
    /\ get_related st "intrusion-set" "uses" "malware" true = Ok groups_using_malware
    /\ get_related st "campaign" "uses" "tool" true = Ok campaigns_using_tool
    /\ get_related st "campaign" "uses" "malware" true = Ok campaigns_using_malware
    /\ get_related st "campaign" "attributed-to" "intrusion-set" false = Ok groups
    /\ get_groups_using_software st = Ok groups_using_software
    /\ forall software_id,
         dict_mem software_id groups_using_software
         = dict_mem software_id groups_using_tool
           || dict_mem software_id groups_using_malware
           || (dict_mem software_id campaigns_using_tool
               || dict_mem software_id campaigns_using_malware)
         /\ get_groups_using_software_with_id st software_id
            = Ok ((index_or_empty groups_using_tool software_id
                   ++ index_or_empty groups_using_malware software_id)
                  ++ flat_map
                       (fun campaign => index_or_empty groups (entry_id campaign))
                       (index_or_empty campaigns_using_tool software_id
                        ++ index_or_empty campaigns_using_malware software_id)).
Proof.
  one_hop st "intrusion-set" "uses" "tool" true g_t Eg_t Wg_t.
  one_hop st "intrusion-set" "uses" "malware" true gm Egm Wgm.
  one_hop st "campaign" "uses" "tool" true ct Ect Wct.
  one_hop st "campaign" "uses" "malware" true cm Ecm Wcm.
  one_hop st "campaign" "attributed-to" "intrusion-set" false gs Egs Wgs.
  exists g_t, gm, ct, cm, gs. eexists.
  repeat (split; [eassumption|]).
  unfold get_groups_using_software_with_id, get_groups_using_software.
  rewrite Eg_t, Egm, Ect, Ecm, Egs. cbn [bind].
  split; [reflexivity|]. intros k.
  assert (Wb : dict_wf (merge ct cm)) by now apply merge_wf.
  split.
  - now rewrite add_bridged_mem, !merge_mem.
  - rewrite add_bridged_value by assumption. unfold bridged_value.
    now rewrite !merge_value.
Qed.

(** X5.  [get_techniques_used_by_groups] always returns.  Under a group it
    lists the group's own techniques, then for each campaign attributed to
    the group, in order, that campaign's techniques; a group with an
    attributed campaign and no technique at all is a key with an empty
    list. *)
Theorem get_techniques_used_by_groups_value st :
  exists techniques_by_group campaigns techniques_by_campaign
         techniques_used_by_groups,
    get_related st "intrusion-set" "uses" "attack-pattern" false = Ok techniques_by_group
    /\ get_related st "campaign" "attributed-to" "intrusion-set" true = Ok campaigns
    /\ get_related st "campaign" "uses" "attack-pattern" false = Ok techniques_by_campaign
    /\ get_techniques_used_by_groups st = Ok techniques_used_by_groups
    /\ forall group_id,
         dict_mem group_id techniques_used_by_groups
         = dict_mem group_id techniques_by_group || dict_mem group_id campaigns
         /\ get_techniques_used_by_group_with_id st group_id
            = Ok (index_or_empty techniques_by_group group_id
                  ++ flat_map
                       (fun campaign =>
                          index_or_empty techniques_by_campaign (entry_id campaign))
                       (index_or_empty campaigns group_id)).
Proof.
  one_hop st "intrusion-set" "uses" "attack-pattern" false tg Etg Wtg.
  one_hop st "campaign" "attributed-to" "intrusion-set" true cs Ecs Wcs.
  one_hop st "campaign" "uses" "attack-pattern" false tc Etc Wtc.
  exists tg, cs, tc. eexists.
  repeat (split; [eassumption|]).
  unfold get_techniques_used_by_group_with_id, get_techniques_used_by_groups.
  rewrite Etg, Ecs, Etc. cbn [bind].
  split; [reflexivity|]. intros k. split.
  - now rewrite add_bridged_mem.
  - now rewrite add_bridged_value.
Qed.

(** X6.  [get_groups_using_techniques] always returns.  Under a technique
    it lists the groups using it, then for each campaign using it, in order,
    the entries of the groups that campaign is attributed to. *)
Theorem get_groups_using_techniques_value st :
  exists groups_by_technique campaigns groups groups_using_techniques,
    get_related st "intrusion-set" "uses" "attack-pattern" true = Ok groups_by_technique
    /\ get_related st "campaign" "uses" "attack-pattern" true = Ok campaigns
    /\ get_related st "campaign" "attributed-to" "intrusion-set" false = Ok groups
    /\ get_groups_using_techniques st = Ok groups_using_techniques
    /\ forall technique_id,
         dict_mem technique_id groups_using_techniques
         = dict_mem technique_id groups_by_technique || dict_mem technique_id campaigns
         /\ get_groups_using_technique_with_id st technique_id
            = Ok (index_or_empty groups_by_technique technique_id
                  ++ flat_map
                       (fun campaign => index_or_empty groups (entry_id campaign))
                       (index_or_empty campaigns technique_id)).
Proof.
  one_hop st "intrusion-set" "uses" "attack-pattern" true g_t Eg_t Wg_t.
  one_hop st "campaign" "uses" "attack-pattern" true cs Ecs Wcs.
  one_hop st "campaign" "attributed-to" "intrusion-set" false gs Egs Wgs.
  exists g_t, cs, gs. eexists.
  repeat (split; [eassumption|]).
  unfold get_groups_using_technique_with_id, get_groups_using_techniques.
  rewrite Eg_t, Ecs, Egs. cbn [bind].
  split; [reflexivity|]. intros k. split.
  - now rewrite add_bridged_mem.
  - now rewrite add_bridged_value.
Qed.

(** X7.  The software/campaign composites always return, and list under a
    key the tool entries followed by the malware entries of the two one-hop
    mappings they merge. *)
Theorem software_campaign_composites_value st :
  exists tools_by_campaign malware_by_campaign campaigns_by_tool campaigns_by_malware,
    get_related st "campaign" "uses" "tool" false = Ok tools_by_campaign
    /\ get_related st "campaign" "uses" "malware" false = Ok malware_by_campaign
    /\ get_related st "campaign" "uses" "tool" true = Ok campaigns_by_tool
    /\ get_related st "campaign" "uses" "malware" true = Ok campaigns_by_malware
    /\ forall stix_id,
         get_software_used_by_campaign_with_id st stix_id
         = Ok (index_or_empty tools_by_campaign stix_id
               ++ index_or_empty malware_by_campaign stix_id)
         /\ get_campaigns_using_software_with_id st stix_id
            = Ok (index_or_empty campaigns_by_tool stix_id
                  ++ index_or_empty campaigns_by_malware stix_id).
Proof.
  one_hop st "campaign" "uses" "tool" false tc Etc Wtc.
  one_hop st "campaign" "uses" "malware" false mc Emc Wmc.
  one_hop st "campaign" "uses" "tool" true ct Ect Wct.
  one_hop st "campaign" "uses" "malware" true cm Ecm Wcm.
  exists tc, mc, ct, cm.
  repeat (split; [eassumption|]).
  unfold get_software_used_by_campaign_with_id, get_software_used_by_campaigns,
    get_campaigns_using_software_with_id, get_campaigns_using_software.
  rewrite Etc, Emc, Ect, Ecm. cbn [bind].
  intros k. now rewrite !merge_value.
Qed.

(** X8.  The technique/software composites combine their two one-hop
    mappings with a dictionary union: under a key of the malware mapping
    they list that mapping's entries only, under any other key the entries of
    the tool mapping. *)
Theorem technique_software_composites_value st :
  exists techniques_by_tool techniques_by_malware tools_by_technique
         malware_by_technique,
    get_related st "tool" "uses" "attack-pattern" false = Ok techniques_by_tool
    /\ get_related st "malware" "uses" "attack-pattern" false = Ok techniques_by_malware
    /\ get_related st "tool" "uses" "attack-pattern" true = Ok tools_by_technique
    /\ get_related st "malware" "uses" "attack-pattern" true = Ok malware_by_technique
    /\ forall stix_id,
         get_techniques_used_by_software_with_id st stix_id
         = Ok (if dict_mem stix_id techniques_by_malware
               then index_or_empty techniques_by_malware stix_id
               else index_or_empty techniques_by_tool stix_id)
         /\ get_software_using_technique_with_id st stix_id
            = Ok (if dict_mem stix_id malware_by_technique
                  then index_or_empty malware_by_technique stix_id
                  else index_or_empty tools_by_technique stix_id).
Proof.
  one_hop st "tool" "uses" "attack-pattern" false t_t Et_t Wt_t.
  one_hop st "malware" "uses" "attack-pattern" false tm Etm Wtm.
  one_hop st "tool" "uses" "attack-pattern" true s_t Est Wst.
  one_hop st "malware" "uses" "attack-pattern" true sm Esm Wsm.
  exists t_t, tm, s_t, sm.
  repeat (split; [eassumption|]).
  unfold get_techniques_used_by_software_with_id, get_techniques_used_by_software,
    get_software_using_technique_with_id, get_software_using_techniques.
  rewrite Et_t, Etm, Est, Esm. cbn [bind].
  intros k. unfold index_or_empty, dict_mem.
  rewrite !dict_union_get by assumption.
  split; [destruct (dict_get k tm)|destruct (dict_get k sm)]; reflexivity.
Qed.

Lemma one_hop_lists st source_type rel_type target_type reverse m k e :
  get_related st source_type rel_type target_type reverse = Ok m ->
  (In e (index_or_empty m k)
   <-> lists_edge st source_type rel_type target_type reverse k e).
Proof.
  intros Hm. apply get_related_Ok in Hm as (_ & _ & Hget).
  unfold index_or_empty, lists_edge. rewrite Hget.
  destruct (edges_anchored st source_type rel_type target_type reverse k)
    as [|r rs] eqn:E.
  - split; [intros []|].
    intros (Hin & Hret & Hsel & Ha & _).
    assert (H : In (relationship e)
                   (edges_anchored st source_type rel_type target_type reverse k))
      by (apply edges_anchored_In; auto).
    now rewrite E in H.
  - rewrite entries_at_In, edges_anchored_In. tauto.
Qed.

(** X9.  An entry is listed under a group by
    [get_techniques_used_by_groups] exactly when it pairs a kept [uses] edge
    from the group with the non-revoked technique it points to, or pairs a
    kept [uses] edge from a campaign with the non-revoked technique it
    points to, where the campaign is non-revoked and a kept [attributed-to]
    edge leads from it to the group. *)
Theorem techniques_of_group st :
  exists techniques_used_by_groups,
    get_techniques_used_by_groups st = Ok techniques_used_by_groups
    /\ forall group_id e,
         In e (index_or_empty techniques_used_by_groups group_id)
         <-> lists_edge st "intrusion-set" "uses" "attack-pattern" false group_id e
             \/ exists campaign,
                  lists_edge st "campaign" "attributed-to" "intrusion-set" true
                             group_id campaign
                  /\ lists_edge st "campaign" "uses" "attack-pattern" false
                                (entry_id campaign) e.
Proof.
  one_hop st "intrusion-set" "uses" "attack-pattern" false tg Etg Wtg.
  one_hop st "campaign" "attributed-to" "intrusion-set" true cs Ecs Wcs.
  one_hop st "campaign" "uses" "attack-pattern" false tc Etc Wtc.
  unfold get_techniques_used_by_groups. rewrite Etg, Ecs, Etc. cbn [bind].
  eexists. split; [reflexivity|]. intros k e.
  rewrite add_bridged_value by assumption. unfold bridged_value.
  rewrite in_app_iff, in_flat_map.
  rewrite (@one_hop_lists _ _ _ _ _ _ k e Etg).
  split; (intros [H|(c & Hc & He)]; [now left|right; exists c; split]).
  - now apply (@one_hop_lists _ _ _ _ _ _ k c Ecs).
  - now apply (@one_hop_lists _ _ _ _ _ _ (entry_id c) e Etc).
  - now apply (@one_hop_lists _ _ _ _ _ _ k c Ecs).
  - now apply (@one_hop_lists _ _ _ _ _ _ (entry_id c) e Etc).
Qed.

(* ================================================================= *)
(** ** Typed accessors *)

Lemma remove_revoked_deprecated_kept l :
  remove_revoked_deprecated l = filter kept l.
Proof.
  unfold remove_revoked_deprecated. apply filter_ext. intros x.
  unfold kept, is_False, get_default, present_and_true.
  destruct (obj_x_mitre_deprecated x) as [[|]|];
    destruct (obj_revoked x) as [[|]|]; reflexivity.
Qed.

Lemma type_query st type :
  str_mem type ("relationship" :: stix_types) = true ->
  src_query st [ mkFilter "type" OpEq (FStr type) ]
  = Ok (filter (of_type type) (objects st)).
Proof.
  intros Hty. rewrite src_query_accepted.
  - f_equal. apply filter_ext. intros o. unfold check_filter, get_property, of_type.
    simpl. apply andb_true_r.
  - right. unfold filter_accepted. cbn -[str_mem stix_types].
    now rewrite Hty.
Qed.

Lemma select_typed type (remove : bool) (os : list StixObject) :
  (if remove then remove_revoked_deprecated (filter (of_type type) os)
   else filter (of_type type) os)
  = filter (selected_by type remove) os.
Proof.
  destruct remove.
  - rewrite remove_revoked_deprecated_kept, filter_filter. reflexivity.
  - apply filter_ext. intros o. unfold selected_by. simpl. now rewrite andb_true_r.
Qed.

(** X10.  [get_techniques], [get_mitigations], [get_groups] and
    [get_campaigns] never raise.  Each returns the store's objects of its
    type in store order; with [remove] set, those among them that are
    neither revoked nor deprecated. *)
Theorem typed_accessors st remove :
  get_techniques st remove
  = Ok (filter (selected_by "attack-pattern" remove) (objects st))
  /\ get_mitigations st remove
     = Ok (filter (selected_by "course-of-action" remove) (objects st))
  /\ get_groups st remove
     = Ok (filter (selected_by "intrusion-set" remove) (objects st))
  /\ get_campaigns st remove
     = Ok (filter (selected_by "campaign" remove) (objects st)).
Proof.
  unfold get_techniques, get_mitigations, get_groups, get_campaigns.
  rewrite !type_query by reflexivity. cbn [bind].
  rewrite !select_typed. repeat split; reflexivity.
Qed.

(** X11.  [get_software] returns every tool before every malware, each
    group in store order, filtered like the other accessors when [remove]
    is set. *)
Theorem get_software_tools_first st remove :
  get_software st remove
  = Ok (filter (selected_by "tool" remove) (objects st)
        ++ filter (selected_by "malware" remove) (objects st)).
Proof.
  unfold get_software. rewrite !type_query by reflexivity. cbn [bind].
  f_equal. rewrite <- !select_typed. destruct remove; [|reflexivity].
  unfold remove_revoked_deprecated. apply filter_app.
Qed.

(* ================================================================= *)
(** ** Validation of the object type *)

(** X12.  The lookups by name and by ATT&CK id raise [ValueError] exactly
    when the object type is outside [stix_types], whatever the store holds.
    For an object type of the vocabulary the only exception they raise is
    the [IndexError] of an empty result. *)
Theorem object_type_validation st name attack_id object_type :
  (get_object_by_name st name object_type = Raise ValueError
   <-> str_mem object_type stix_types = false)
  /\ (get_object_by_attack_id st attack_id object_type = Raise ValueError
      <-> str_mem object_type stix_types = false)
  /\ (forall e,
        get_object_by_name st name object_type = Raise e ->
        (e = ValueError /\ str_mem object_type stix_types = false)
        \/ (e = IndexError /\ str_mem object_type stix_types = true))
  /\ (forall e,
        get_object_by_attack_id st attack_id object_type = Raise e ->
        (e = ValueError /\ str_mem object_type stix_types = false)
        \/ (e = IndexError /\ str_mem object_type stix_types = true)).
Proof.
  unfold get_object_by_name, get_object_by_attack_id.
  destruct (str_mem object_type stix_types) eqn:Hty; cbn [negb].
  - rewrite (proj1 (@typed_query st object_type
                      (mkFilter "name" OpEq (FStr name)) _
                      Hty eq_refl (check_name name))).
    rewrite (proj2 (@typed_query st object_type
                      (mkFilter "external_references.external_id" OpEq
                         (FStr attack_id)) _
                      Hty eq_refl (check_attack_id attack_id))).
    cbn [bind]. rewrite !list_index_0.
    repeat split; try discriminate;
      match goal with
      | |- context [match ?l with _ => _ end] => destruct l
      end; cbn [bind]; try discriminate;
      intros e [= <-]; right; now split.
  - repeat split; try reflexivity; intros e [= <-]; left; now split.
Qed.

(* ================================================================= *)
(** ** The revoking object *)

Lemma str_mem_In s l : str_mem s l = true <-> In s l.
Proof.
  unfold str_mem. rewrite existsb_exists. split.
  - intros (x & Hx & E). apply String.eqb_eq in E. now subst.
  - intros H. exists s. split; [assumption|apply String.eqb_refl].
Qed.

(** X13.  Whatever [get_revoked_by] returns is an object of the store with
    [revoked = False] that a [revoked-by] edge of the store out of [stix_id]
    points to; the call never returns [None]. *)
Theorem get_revoked_by_sound st stix_id answer :
  get_revoked_by st stix_id = Ok answer ->
  exists o r,
    answer = Some o
    /\ In o (objects st)
    /\ obj_revoked o = Some false
    /\ In (SRO r) (objects st)
    /\ relationship_type r = "revoked-by"
    /\ source_ref r = stix_id
    /\ target_ref r = obj_id o.
Proof.
  unfold get_revoked_by. rewrite revoking_query_revokers. cbn [bind].
  rewrite list_index_0.
  destruct (revokers st stix_id) as [|o os] eqn:E; [discriminate|].
  cbn [bind]. intros [= <-].
  assert (Ho : In o (revokers st stix_id)) by (rewrite E; now left).
  unfold revokers in Ho. apply filter_In in Ho as [Hin Ho].
  apply andb_true_iff in Ho as [Hmem Hrev].
  apply str_mem_In in Hmem. unfold revoked_by_refs in Hmem.
  apply in_flat_map in Hmem as (x & Hx & Hid).
  destruct x as [e|r]; [contradiction|].
  destruct ((relationship_type r =? "revoked-by") && (source_ref r =? stix_id))
    eqn:Er; [|contradiction].
  apply andb_true_iff in Er as [Et Es].
  apply String.eqb_eq in Et, Es. destruct Hid as [Hid|[]].
  exists o, r. repeat split; try assumption.
  now apply revoked_False_iff.
Qed.

(** The statement at a store where an old technique is revoked by a
    current one. *)
Lemma get_revoked_by_sound_witness :
  exists o r,
    Some Examples.T = Some o
    /\ In o (objects Examples.revoked_technique)
    /\ obj_revoked o = Some false
    /\ In (SRO r) (objects Examples.revoked_technique)
    /\ relationship_type r = "revoked-by"
    /\ source_ref r = Examples.T_old_id
    /\ target_ref r = obj_id o.
Proof.
  apply (@get_revoked_by_sound Examples.revoked_technique Examples.T_old_id
           (Some Examples.T)).
  reflexivity.
Defined.

(* ================================================================= *)
(** ** The type of an identifier *)

Lemma prefix_empty (s : string) : String.prefix "" s = true.
Proof. now destruct s. Qed.

Lemma get_type_from_id_typed (type rest : string) :
  str_in "--" (type ++ "-")%string = false ->
  get_type_from_id (type ++ "--" ++ rest)%string = type.
Proof.
  induction type as [|c type IH]; intros H.
  - cbn. now rewrite prefix_empty.
  - cbn [String.append] in *. cbn [str_in] in H.
    apply orb_false_iff in H as [Hp Hs].
    cbn [get_type_from_id].
    match goal with
    | |- context [if ?b then _ else _] => destruct b eqn:Hp'
    end; [exfalso|f_equal; now apply IH].
    cbn [String.prefix] in *.
    destruct (ascii_dec "-" c) as [_|_]; [|discriminate].
    destruct type as [|d type]; cbn [String.append String.prefix] in *.
    + destruct (ascii_dec "-" "-"); [discriminate|congruence].
    + destruct (ascii_dec "-" d); [|discriminate].
      now rewrite prefix_empty in Hp.
Qed.

(** X14.  On an identifier made of a type tag of the vocabulary, [--] and
    anything else, [get_object_type] returns the type tag. *)
Theorem get_object_type_of_typed_id st (type rest : string) :
  str_mem type ("relationship" :: stix_types) = true ->
  get_object_type st (type ++ "--" ++ rest)%string = type.
Proof.
  intros Hty. unfold get_object_type. apply get_type_from_id_typed.
  apply str_mem_In in Hty. simpl in Hty.
  repeat (destruct Hty as [<-|Hty]; [reflexivity|]). contradiction.
Qed.

(** The statement at the identifier of the scenario's tool. *)
Lemma get_object_type_of_typed_id_witness :
  get_object_type (Examples.scenario true)
    ("tool" ++ "--" ++ "00000000-0000-4000-8000-00000000000b")%string
  = "tool".
Proof.
  apply (@get_object_type_of_typed_id (Examples.scenario true) "tool"
           "00000000-0000-4000-8000-00000000000b").
  reflexivity.
Defined.

(* ================================================================= *)
(** ** Techniques of a group's software *)

Lemma filter_result_targets (p : StixObject -> bool) (c : string -> bool)
    (os : list StixObject) :
  (forall e, p (SDO e) = false) ->
  filter_result (fun r => target <- attr_target_ref r ;; Ok (c target)) (filter p os)
  = Ok (filter (fun o => p o && match o with
                                | SRO r => c (target_ref r)
                                | SDO _ => false
                                end) os).
Proof.
  intros Hp. induction os as [|o os IH]; simpl; [reflexivity|].
  destruct o as [e|r].
  - now rewrite Hp.
  - destruct (p (SRO r)); simpl; [|assumption].
    rewrite IH. simpl. now destruct (c (target_ref r)).
Qed.

Lemma target_refs_In p os id :
  In id (target_refs p os) <->
  exists r, In (SRO r) os /\ p (SRO r) = true /\ target_ref r = id.
Proof.
  unfold target_refs. rewrite in_flat_map. split.
  - intros (o & Ho & Hid). destruct o as [e|r]; [contradiction|].
    destruct (p (SRO r)) eqn:Ep; [|contradiction].
    destruct Hid as [<-|[]]. now exists r.
  - intros (r & Hr & Hp & <-). exists (SRO r). split; [assumption|].
    rewrite Hp. now left.
Qed.

Lemma map_result_refs (p : StixObject -> bool) (os : list StixObject) :
  (forall e, p (SDO e) = false) ->
  map_result attr_target_ref (filter p os) = Ok (target_refs p os).
Proof. intros Hp. now apply map_result_target_refs. Qed.

Lemma target_refs_ext (p q : StixObject -> bool) (os : list StixObject) :
  (forall r, p (SRO r) = q (SRO r)) -> target_refs p os = target_refs q os.
Proof.
  intros H. unfold target_refs. apply flat_map_ext. intros [e|r]; [reflexivity|].
  now rewrite H.
Qed.

Lemma get_techniques_used_by_group_software_eq st group_stix_id :
  get_techniques_used_by_group_software st group_stix_id
  = Ok (filter
          (fun o =>
             of_type "attack-pattern" o
             && str_mem (obj_id o)
                  (target_refs
                     (uses_from (target_refs (uses_software group_stix_id)
                                             (objects st)))
                     (objects st)))
          (objects st)).
Proof.
  unfold get_techniques_used_by_group_software, src_relationships.
  cbn [andb negb app].
  rewrite src_query_accepted by (right; reflexivity).
  cbn [bind]. rewrite app_nil_r.
  rewrite filter_result_targets.
  2:{ intros e. unfold check_filter, get_property. simpl.
      now destruct (ent_type e =? "relationship"). }
  cbn [bind].
  rewrite map_result_refs.
  2:{ intros e. unfold check_filter, get_property. simpl.
      now destruct (ent_type e =? "relationship"). }
  cbn [bind].
  rewrite (@target_refs_ext _ (uses_software group_stix_id)).
  2:{ intros r. unfold uses_software, check_filter, get_property. simpl.
      now rewrite !andb_true_r. }
  rewrite src_query_accepted by (right; reflexivity).
  cbn [bind].
  rewrite map_result_refs.
  2:{ intros e. unfold check_filter, get_property. simpl.
      now destruct (ent_type e =? "relationship"). }
  cbn [bind].
  rewrite (@target_refs_ext _
             (uses_from (target_refs (uses_software group_stix_id) (objects st)))).
  2:{ intros r. unfold uses_from, check_filter, get_property. simpl.
      now rewrite !andb_true_r. }
  rewrite src_query_accepted by (right; reflexivity).
  f_equal. apply filter_ext. intros o.
  unfold check_filter, get_property, of_type. simpl. now rewrite andb_true_r.
Qed.

(** X15.  [get_techniques_used_by_group_software] never raises.  It
    returns, in store order and once per store object, exactly the
    attack-pattern objects that a [uses] edge points to whose source is the
    target, typed malware or tool by its identifier, of a [uses] edge out of
    the group.  No edge or object is left out for being revoked or
    deprecated. *)
Theorem techniques_of_group_software st group_stix_id :
  exists techniques,
    get_techniques_used_by_group_software st group_stix_id = Ok techniques
    /\ subsequence techniques (objects st)
    /\ forall t,
         In t techniques <->
         In t (objects st)
         /\ obj_type t = "attack-pattern"
         /\ exists group_uses software_uses,
              In (SRO group_uses) (objects st)
              /\ relationship_type group_uses = "uses"
              /\ source_ref group_uses = group_stix_id
              /\ (get_type_from_id (target_ref group_uses) = "malware"
                  \/ get_type_from_id (target_ref group_uses) = "tool")
              /\ In (SRO software_uses) (objects st)
              /\ relationship_type software_uses = "uses"
              /\ source_ref software_uses = target_ref group_uses
              /\ target_ref software_uses = obj_id t.
Proof.
  rewrite get_techniques_used_by_group_software_eq.
  eexists. split; [reflexivity|]. split; [apply filter_subsequence|].
  intros t. rewrite filter_In, andb_true_iff. unfold of_type.
  rewrite String.eqb_eq, str_mem_In, target_refs_In.
  split.
  - intros (Hin & Hty & r2 & Hr2 & Hp2 & Hid).
    split; [assumption|]. split; [assumption|].
    unfold uses_from in Hp2. apply andb_true_iff in Hp2 as [Ht2 Hs2].
    apply String.eqb_eq in Ht2. apply str_mem_In, target_refs_In in Hs2.
    destruct Hs2 as (r1 & Hr1 & Hp1 & Hid1).
    unfold uses_software in Hp1.
    apply andb_true_iff in Hp1 as [Hp1 Hsw].
    apply andb_true_iff in Hp1 as [Ht1 Hs1].
    apply String.eqb_eq in Ht1, Hs1.
    apply str_mem_In in Hsw. simpl in Hsw.
    exists r1, r2. repeat split; try assumption; try congruence.
    destruct Hsw as [H|[H|[]]]; auto.
  - intros (Hin & Hty & r1 & r2 & Hr1 & Ht1 & Hs1 & Hsw & Hr2 & Ht2 & Hs2 & Hid).
    split; [assumption|]. split; [assumption|].
    exists r2. split; [assumption|]. split; [|assumption].
    unfold uses_from. rewrite Ht2. simpl.
    apply str_mem_In, target_refs_In. exists r1.
    split; [assumption|]. split; [|congruence].
    unfold uses_software. rewrite Ht1, Hs1, !String.eqb_refl.
    cbn [andb]. apply str_mem_In. simpl. destruct Hsw as [<-|<-]; auto.
Qed.
